(** * gw2-pathfinder: the recommendation view

    A shallow embedding of [backend/recommendations.py] (the
    [RecommendationView.get] handler) and of the [Achievement] model of
    [backend/models.py], followed by the properties of the affinity
    estimator and of the bucketer.

    The handler talks to two collaborators, the remote progress API and the
    catalog store.  Both are part of an explicit [World]; the handler is a
    computation that reads the world, records the accesses it makes and
    either returns a response or raises. *)

From Stdlib Require Import ZArith String List Bool Lia Sorted Permutation.
From Stdlib Require Import Floats.SpecFloat.
From stdpp Require Import base option list gmap strings.

Open Scope Z_scope.

(** ** The Python operations the handler relies on *)

Module Py.

(** Exceptions that can escape the handler. *)
Inductive exn : Type :=
| ZeroDivisionError
| OverflowError
| RequestError.

Definition result (A : Type) : Type := exn + A.

Definition ret {A} (x : A) : result A := inr x.

Definition bind {A B} (m : result A) (k : A -> result B) : result B :=
  match m with
  | inl e => inl e
  | inr x => k x
  end.

(** Python floats are IEEE 754 binary64 numbers. *)
Definition prec : Z := 53.
Definition emax : Z := 1024.
Definition float : Type := spec_float.

Definition float_of_int (z : Z) : float :=
  match z with
  | Z0 => S754_zero false
  | Zpos p => S754_finite false p 0
  | Zneg p => S754_finite true p 0
  end.

(** [a / b] on two ints: the binary64 number nearest to the exact
    quotient (ties to even); a zero divisor and a quotient too large for
    a float raise. *)
Definition truediv (a b : Z) : result float :=
  if b =? 0 then inl ZeroDivisionError
  else
    match SFdiv prec emax (float_of_int a) (float_of_int b) with
    | S754_infinity _ => inl OverflowError
    | q => inr q
    end.

(** [x > y] on floats. *)
Definition float_gt (x y : float) : bool := SFltb y x.

(** The literal [0.7]: the binary64 number nearest to 7/10. *)
Definition lit_0_7 : float :=
  Eval vm_compute in SFdiv prec emax (float_of_int 7) (float_of_int 10).

(** [needle in hay] on two strings: substring test. *)
Fixpoint str_contains (needle hay : string) : bool :=
  match hay with
  | EmptyString => String.prefix needle EmptyString
  | String _ rest => String.prefix needle hay || str_contains needle rest
  end.

(** [x in xs] on a list of strings. *)
Definition list_contains (x : string) (xs : list string) : bool :=
  existsb (String.eqb x) xs.

(** [x in xs] on a list of ints. *)
Definition int_in (x : Z) (xs : list Z) : bool :=
  existsb (Z.eqb x) xs.

(** A decoded JSON value, for the fields the handler only passes along. *)
#[warnings="-register-all"]
Inductive json : Type :=
| JNull
| JBool (b : bool)
| JInt (n : Z)
| JStr (s : string)
| JList (l : list json)
| JDict (d : list (string * json)).

(** Truth value of an optional string ([None] and [""] are falsy). *)
Definition truthy_str (o : option string) : bool :=
  match o with
  | None => false
  | Some s => negb (String.eqb s EmptyString)
  end.

(** Truth value of an optional boolean (as returned by [d.get(k)]). *)
Definition truthy_bool (o : option bool) : bool := default false o.

End Py.

Notation "'py' x ← m ; k" := (Py.bind m (fun x => k))
  (at level 20, x name, m at level 100, k at level 200).

(** ** Data model *)

(** A row of the catalog ([backend/models.py]). *)
Module Achievement.
Record t : Type := mk {
  gw2_id : Z;
  name : string;
  description : string;
  requirement : string;
  category_name : string;
  group_name : string;
  flags : list string;
  tiers : list Py.json;
  rewards : list Py.json;
  is_legendary : bool;
  community_priority : bool
}.

Definition with_community_priority (b : bool) (a : t) : t :=
  mk (gw2_id a) (name a) (description a) (requirement a) (category_name a)
     (group_name a) (flags a) (tiers a) (rewards a) (is_legendary a) b.
End Achievement.

(** A progress record of the remote API: [{id, current, max, done, bits}].
    Every field but [id] is read with [dict.get] and may be missing. *)
Module Progress.
Record t : Type := mk {
  id : Z;
  current : option Z;
  max : option Z;
  done : option bool;
  bits : option (list Z)
}.
End Progress.

(** The projection placed in the buckets ([ach_data]). *)
Module AchData.
Record t : Type := mk {
  id : Z;
  name : string;
  requirement : string;
  category : string;
  progress : Z;
  max : Z
}.
End AchData.

(** The five buckets ([recommendations]). *)
Module Recommendations.
Record t : Type := mk {
  nearly_complete : list AchData.t;
  legendary : list AchData.t;
  pvp : list AchData.t;
  story : list AchData.t;
  exploration : list AchData.t
}.

Definition empty : t := mk [] [] [] [] [].
End Recommendations.

(** What the handler hands to [Response]. *)
Inductive body : Type :=
| ErrorBody (error : string)
| RecommendationsBody (recommendations : Recommendations.t).

Record Response : Type := mkResponse { data : body; status : Z }.

(** ** The collaborators *)

(** The catalog store: the rows of the [Achievement] table and the
    collation the database uses for [ORDER BY name]. *)
Record Store : Type := mkStore {
  rows : list Achievement.t;
  name_le : string -> string -> bool
}.

(** The world of one request: what the remote API answers to a GET with
    the given url and headers (already decoded by [.json()]), and the
    catalog. *)
Record World : Type := mkWorld {
  gw2_api : string -> list (string * string) -> Py.result (list Progress.t);
  objects : Store
}.

(** Accesses to the collaborators, in the order they happen. *)
Inductive event : Type :=
| HttpGet (url : string) (headers : list (string * string))
| QueryFilterIn (ids : list Z)
| QueryExcludeIn (ids : list Z).

(** A handler computation: reads the world, logs its accesses, returns or
    raises. *)
Definition View (A : Type) : Type := World -> list event * Py.result A.

Definition vret {A} (x : A) : View A := fun _ => ([], inr x).

Definition vbind {A B} (m : View A) (k : A -> View B) : View B :=
  fun w =>
    match m w with
    | (t1, inl e) => (t1, inl e)
    | (t1, inr x) =>
        match k x w with
        | (t2, r) => (t1 ++ t2, r)
        end
    end.

Definition vlift {A} (r : Py.result A) : View A := fun _ => ([], r).

Notation "'io' x ← m ; k" := (vbind m (fun x => k))
  (at level 20, x name, m at level 100, k at level 200).

(** [Meta.ordering = ['name']]: every query set is delivered sorted by
    name. *)
Fixpoint insert_by_name (le : string -> string -> bool)
    (a : Achievement.t) (l : list Achievement.t) : list Achievement.t :=
  match l with
  | [] => [a]
  | b :: l' =>
      if le (Achievement.name a) (Achievement.name b) then a :: b :: l'
      else b :: insert_by_name le a l'
  end.

Definition order_by_name (le : string -> string -> bool)
    (l : list Achievement.t) : list Achievement.t :=
  fold_right (insert_by_name le) [] l.

(** [Achievement.objects.filter(gw2_id__in=ids)] *)
Definition select_filter_in (s : Store) (ids : list Z) : list Achievement.t :=
  order_by_name (name_le s)
    (List.filter (fun a => Py.int_in (Achievement.gw2_id a) ids) (rows s)).

(** [Achievement.objects.exclude(gw2_id__in=ids)] *)
Definition select_exclude_in (s : Store) (ids : list Z) : list Achievement.t :=
  order_by_name (name_le s)
    (List.filter (fun a => negb (Py.int_in (Achievement.gw2_id a) ids)) (rows s)).

(** The two queries as the handler runs them.  The store of this model
    answers every query: a backend that refuses the parameters of a query
    (an id beyond its integer range, more ids than one statement takes) or
    that cannot be reached raises at the query, before the scan, and is
    outside this model.  Statements that the loop over the scanned entries
    completes, or about a response that was returned, do not depend on
    it. *)
Definition objects_filter_in (ids : list Z) : View (list Achievement.t) :=
  fun w => ([QueryFilterIn ids], inr (select_filter_in (objects w) ids)).

Definition objects_exclude_in (ids : list Z) : View (list Achievement.t) :=
  fun w => ([QueryExcludeIn ids], inr (select_exclude_in (objects w) ids)).

Definition requests_get_json (url : string) (headers : list (string * string))
  : View (list Progress.t) :=
  fun w => ([HttpGet url headers], gw2_api w url headers).

(** ** The handler, step by step *)

Definition api_url : string := "https://api.guildwars2.com/v2/account/achievements".

Definition is_done (a : Progress.t) : bool := Py.truthy_bool (Progress.done a).

(** [[a['id'] for a in user_achievements if a.get('done')]] *)
Definition completed_ids (user_achievements : list Progress.t) : list Z :=
  List.map Progress.id (List.filter is_done user_achievements).

(** The counting loop over [history]. *)
Definition count_category (affinity_map : gmap string Z) (ach : Achievement.t)
  : gmap string Z :=
  <[Achievement.category_name ach :=
      default 0 (affinity_map !! Achievement.category_name ach) + 1]> affinity_map.

Definition affinity (history : list Achievement.t) : gmap string Z :=
  fold_left count_category history ∅.

(** [{a['id']: a for a in user_achievements if not a.get('done')}]: a later
    record replaces an earlier one with the same id. *)
Definition in_progress (user_achievements : list Progress.t) : gmap Z Progress.t :=
  fold_left (fun m a => <[Progress.id a := a]> m)
    (List.filter (fun a => negb (is_done a)) user_achievements) ∅.

(** [score = affinity_map.get(ach.category_name, 0)], plus 10 for a
    community priority. *)
Definition score (affinity_map : gmap string Z) (ach : Achievement.t) : Z :=
  let score := default 0 (affinity_map !! Achievement.category_name ach) in
  if Achievement.community_priority ach then score + 10 else score.

Definition ach_data (progress_obj : option Progress.t) (ach : Achievement.t)
  : AchData.t :=
  {| AchData.id := Achievement.gw2_id ach;
     AchData.name := Achievement.name ach;
     AchData.requirement := Achievement.requirement ach;
     AchData.category := Achievement.category_name ach;
     AchData.progress :=
       match progress_obj with
       | Some p => default 0 (Progress.current p)
       | None => 0
       end;
     AchData.max :=
       match progress_obj with
       | Some p => default 0 (Progress.max p)
       | None => 1
       end |}.

(** The operands of the ratio of line 57. *)
Definition ratio_numerator (p : Progress.t) : Z := default 0 (Progress.current p).
Definition ratio_denominator (p : Progress.t) : Z := default 1 (Progress.max p).

(** [progress_obj and (current / max) > 0.7] *)
Definition nearly_complete_test (progress_obj : option Progress.t) : Py.result bool :=
  match progress_obj with
  | None => Py.ret false
  | Some p =>
      py q ← Py.truediv (ratio_numerator p) (ratio_denominator p);
      Py.ret (Py.float_gt q Py.lit_0_7)
  end.

(** The four predicates of the [if]/[elif] chain, in the order they are
    tried. *)
Inductive section_name : Type := Legendary | Pvp | Story | Exploration.

Definition section_of (ach : Achievement.t) : option section_name :=
  if Achievement.is_legendary ach then Some Legendary
  else if Py.list_contains "Pvp" (Achievement.flags ach) then Some Pvp
  else if Py.str_contains "Story" (Achievement.group_name ach) then Some Story
  else if Py.str_contains "Explorer" (Achievement.category_name ach) then Some Exploration
  else None.

Definition append_nearly_complete (d : AchData.t) (r : Recommendations.t) :=
  Recommendations.mk (Recommendations.nearly_complete r ++ [d])
    (Recommendations.legendary r) (Recommendations.pvp r)
    (Recommendations.story r) (Recommendations.exploration r).

Definition append_section (s : option section_name) (d : AchData.t)
    (r : Recommendations.t) : Recommendations.t :=
  match s with
  | Some Legendary =>
      Recommendations.mk (Recommendations.nearly_complete r)
        (Recommendations.legendary r ++ [d]) (Recommendations.pvp r)
        (Recommendations.story r) (Recommendations.exploration r)
  | Some Pvp =>
      Recommendations.mk (Recommendations.nearly_complete r)
        (Recommendations.legendary r) (Recommendations.pvp r ++ [d])
        (Recommendations.story r) (Recommendations.exploration r)
  | Some Story =>
      Recommendations.mk (Recommendations.nearly_complete r)
        (Recommendations.legendary r) (Recommendations.pvp r)
        (Recommendations.story r ++ [d]) (Recommendations.exploration r)
  | Some Exploration =>
      Recommendations.mk (Recommendations.nearly_complete r)
        (Recommendations.legendary r) (Recommendations.pvp r)
        (Recommendations.story r) (Recommendations.exploration r ++ [d])
  | None => r
  end.

(** The body of [for ach in potential]. *)
Definition categorize (affinity_map : gmap string Z)
    (in_progress : gmap Z Progress.t)
    (recommendations : Recommendations.t) (ach : Achievement.t)
  : Py.result Recommendations.t :=
  let progress_obj := in_progress !! Achievement.gw2_id ach in
  let _score := score affinity_map ach in
  let d := ach_data progress_obj ach in
  py nearly ← nearly_complete_test progress_obj;
  let recommendations :=
    if nearly then append_nearly_complete d recommendations else recommendations in
  Py.ret (append_section (section_of ach) d recommendations).

(** A [for] loop whose body may raise. *)
Fixpoint for_each {S A} (body : S -> A -> Py.result S) (l : list A) (s : S)
  : Py.result S :=
  match l with
  | [] => Py.ret s
  | x :: l' => py s' ← body s x; for_each body l' s'
  end.

(** [{"Authorization": f"Bearer {api_key}"}] *)
Definition auth_headers (api_key : option string) : list (string * string) :=
  [("Authorization"%string, String.append "Bearer " (default EmptyString api_key))].

(** [RecommendationView.get] *)
Definition get (api_key : option string) : View Response :=
  if negb (Py.truthy_str api_key) then
    vret (mkResponse (ErrorBody "API Key required") 400)
  else
    let headers := auth_headers api_key in
    io user_achievements ← requests_get_json api_url headers;
    let completed_ids := completed_ids user_achievements in
    io history ← objects_filter_in completed_ids;
    let affinity_map := affinity history in
    let in_progress := in_progress user_achievements in
    io potential ← objects_exclude_in completed_ids;
    io recommendations ←
      vlift (for_each (categorize affinity_map in_progress) potential
               Recommendations.empty);
    vret (mkResponse (RecommendationsBody recommendations) 200).

(** ** Vocabulary of the statements *)

(** The catalog entries the bucketer scans, and the ones the affinity
    estimator counts, for a given progress snapshot. *)
Definition potential (w : World) (user_achievements : list Progress.t)
  : list Achievement.t :=
  select_exclude_in (objects w) (completed_ids user_achievements).

Definition history (w : World) (user_achievements : list Progress.t)
  : list Achievement.t :=
  select_filter_in (objects w) (completed_ids user_achievements).

(** The not-done record of the snapshot with a given id (the last one,
    should the snapshot repeat an id). *)
Definition spec_progress_record (user_achievements : list Progress.t) (i : Z)
  : option Progress.t :=
  last (List.filter (fun a => negb (is_done a) && (Progress.id a =? i))
          user_achievements).

(** The number of catalog rows of a category whose id is in a list. *)
Definition spec_completions (s : Store) (ids : list Z) (category : string) : Z :=
  Z.of_nat (length (List.filter
    (fun a => Py.int_in (Achievement.gw2_id a) ids
              && String.eqb (Achievement.category_name a) category) (rows s))).

(** An entry is listed in a bucket when the bucket holds a projection with
    its id. *)
Definition listed (i : Z) (bucket : list AchData.t) : bool :=
  existsb (fun d => AchData.id d =? i) bucket.

Definition bucket_of (s : section_name) (r : Recommendations.t) : list AchData.t :=
  match s with
  | Legendary => Recommendations.legendary r
  | Pvp => Recommendations.pvp r
  | Story => Recommendations.story r
  | Exploration => Recommendations.exploration r
  end.

Definition section_eqb (s1 s2 : section_name) : bool :=
  match s1, s2 with
  | Legendary, Legendary | Pvp, Pvp | Story, Story | Exploration, Exploration => true
  | _, _ => false
  end.

Definition in_section (s : section_name) (ach : Achievement.t) : bool :=
  match section_of ach with
  | Some s' => section_eqb s s'
  | None => false
  end.

(** The projection of a scanned entry, with its progress resolved. *)
Definition project (in_progress : gmap Z Progress.t) (ach : Achievement.t) : AchData.t :=
  ach_data (in_progress !! Achievement.gw2_id ach) ach.

(** The entries of a scan whose ratio test succeeds. *)
Definition passes_ratio (in_progress : gmap Z Progress.t) (ach : Achievement.t) : bool :=
  match nearly_complete_test (in_progress !! Achievement.gw2_id ach) with
  | inr true => true
  | _ => false
  end.

(** The five buckets, one after the other. *)
Definition all_buckets (r : Recommendations.t) : list AchData.t :=
  Recommendations.nearly_complete r ++ Recommendations.legendary r ++
  Recommendations.pvp r ++ Recommendations.story r ++ Recommendations.exploration r.

(** Ascending by name for a collation. *)
Definition by_name (le : string -> string -> bool) (a b : Achievement.t) : Prop :=
  le (Achievement.name a) (Achievement.name b) = true.

Definition name_ascending (le : string -> string -> bool) (l : list string) : Prop :=
  StronglySorted (fun x y => le x y = true) l.

(** The float a positive mantissa [r <= 2^53] at exponent [e] packs into:
    the carry into the next binade and the overflow to infinity. *)
Definition rounded_float (r e : Z) : Py.float :=
  if r =? 0 then S754_zero false
  else if r =? 2 ^ 53 then
    if e + 1 <=? 971 then S754_finite false (Z.to_pos (2 ^ 52)) (e + 1)
    else S754_infinity false
  else
    if e <=? 971 then S754_finite false (Z.to_pos r) e else S754_infinity false.

(** ** Sample data: the scenarios of the specification *)

Definition wurm_slayer : Achievement.t :=
  Achievement.mk 5 "Wurm Slayer" "" "Kill wurms" "Slayer" "" [] [] [] false true.
Definition maguuma_explorer : Achievement.t :=
  Achievement.mk 1 "Maguuma Explorer" "" "Explore" "Explorer: Maguuma" "" [] [] [] false false.
Definition arena_slayer : Achievement.t :=
  Achievement.mk 3 "Arena Slayer" "" "Win" "Slayer" "" ["Pvp"%string] [] [] false false.
Definition legendary_duelist : Achievement.t :=
  Achievement.mk 2 "Legendary Duelist" "" "Craft" "Weapons" "Story Journal"
    ["Pvp"%string; "CategoryDisplay"%string] [] [] true false.
Definition centaur_slayer : Achievement.t :=
  Achievement.mk 4 "Centaur Slayer" "" "Kill" "Slayer" "" [] [] [] false false.
Definition story_hero : Achievement.t :=
  Achievement.mk 6 "Hero of the Story" "" "Finish" "Side Stories" "Living Story"
    [] [] [] false false.

Definition sample_rows : list Achievement.t :=
  [wurm_slayer; maguuma_explorer; arena_slayer; legendary_duelist; centaur_slayer;
   story_hero].

Definition arena_record : Progress.t :=
  Progress.mk 3 (Some 8) (Some 10) (Some false) None.

Definition sample_progress : list Progress.t :=
  [ Progress.mk 4 (Some 10) (Some 10) (Some true) None;
    arena_record;
    Progress.mk 6 (Some 7) (Some 10) None None ].

Definition sample_store : Store := mkStore sample_rows String.leb.

Definition sample_world : World :=
  mkWorld (fun _ _ => inr sample_progress) sample_store.

Definition sample_key : option string := Some "KEY"%string.

(** What the handler returns for the sample player. *)
Definition sample_recommendations : Recommendations.t :=
  Eval vm_compute in
    match snd (get sample_key sample_world) with
    | inr (mkResponse (RecommendationsBody r) _) => r
    | _ => Recommendations.empty
    end.

(** A player whose record for entry 3 carries [max = 0]. *)
Definition zero_max_record : Progress.t :=
  Progress.mk 3 (Some 8) (Some 0) (Some false) None.

Definition zero_max_world : World :=
  mkWorld (fun _ _ => inr [zero_max_record]) sample_store.


(** ** Vocabulary of the further properties *)


(** Two catalog rows that agree on every field the scan reads. *)
Definition same_listing (a b : Achievement.t) : Prop :=
  Achievement.gw2_id a = Achievement.gw2_id b /\
  Achievement.name a = Achievement.name b /\
  Achievement.requirement a = Achievement.requirement b /\
  Achievement.category_name a = Achievement.category_name b /\
  Achievement.group_name a = Achievement.group_name b /\
  Achievement.flags a = Achievement.flags b /\
  Achievement.is_legendary a = Achievement.is_legendary b.

(** The sum of the counts of an affinity map. *)
Definition affinity_total (affinity_map : gmap string Z) : Z :=
  map_fold (fun _ count acc => count + acc) 0 affinity_map.


(** ** More sample players *)

(** The progress API cannot be reached. *)
Definition offline_world : World :=
  mkWorld (fun _ _ => inl Py.RequestError) sample_store.

(** A player without any record. *)
Definition fresh_world : World := mkWorld (fun _ _ => inr []) sample_store.

(** An empty catalog, and a snapshot with a [max = 0] record. *)
Definition empty_catalog_world : World :=
  mkWorld (fun _ _ => inr [zero_max_record]) (mkStore [] String.leb).

Definition completed_record : Progress.t :=
  Progress.mk 4 (Some 10) (Some 10) (Some true) None.

Definition story_record : Progress.t :=
  Progress.mk 6 (Some 7) (Some 10) None None.

(** A record for an achievement the catalog does not know. *)
Definition unknown_record : Progress.t :=
  Progress.mk 99 (Some 5) (Some 0) (Some false) None.

Definition unknown_record_world : World :=
  mkWorld (fun _ _ => inr ([completed_record] ++ unknown_record :: [arena_record; story_record]))
    sample_store.

(** The sample snapshot in reverse order. *)
Definition reversed_world : World :=
  mkWorld (fun _ _ => inr (rev sample_progress)) sample_store.

(** The sample catalog with every community priority set. *)
Definition priority_world : World :=
  mkWorld (gw2_api sample_world)
    (mkStore (List.map (Achievement.with_community_priority true) sample_rows) String.leb).

(** Records for entry 3: not started, a step ahead, finished, absurd. *)
Definition unstarted_record : Progress.t :=
  Progress.mk 3 None (Some 10) (Some false) None.

Definition ahead_record : Progress.t :=
  Progress.mk 3 (Some 9) (Some 10) (Some false) None.

Definition finished_record : Progress.t :=
  Progress.mk 3 (Some 10) (Some 10) (Some false) None.

Definition huge_record : Progress.t :=
  Progress.mk 3 (Some (2 ^ 1024)) (Some 1) (Some false) None.

(** ** Proof automation *)

(** Case analysis on the integer tests of a goal, closed by [lia]. *)
Ltac bool_arith :=
  repeat match goal with
    | |- context [Z.eqb ?x ?y] => destruct (Z.eqb_spec x y)
    | |- context [Z.ltb ?x ?y] => destruct (Z.ltb_spec x y)
    | |- context [Z.leb ?x ?y] => destruct (Z.leb_spec x y)
    end; cbn [negb andb orb]; try reflexivity; try lia.

(** Case analysis along the [if]/[elif] chain of the sections. *)
Ltac section_chain :=
  unfold section_of;
  repeat match goal with
    | |- context [if ?c then _ else _] => destruct c
    end;
  intuition congruence.

(** * Verification *)

(** ** Python's float division against 0.7

    [Py.truediv] rounds the exact quotient to the nearest binary64 number.
    The lemmas below follow the rounding of [SFdiv] step by step and end in
    an exact integer characterisation of [a / b > 0.7]. *)

Lemma digits2_pos_bounds (p : positive) :
  2 ^ (Zpos (digits2_pos p) - 1) <= Zpos p < 2 ^ Zpos (digits2_pos p).
Proof.
  induction p as [p IH | p IH | ]; simpl digits2_pos.
  - rewrite Pos2Z.inj_succ. replace (Z.succ (Zpos (digits2_pos p)) - 1) with (Z.succ (Zpos (digits2_pos p) - 1)) by lia.
    rewrite !Z.pow_succ_r by lia. lia.
  - rewrite Pos2Z.inj_succ. replace (Z.succ (Zpos (digits2_pos p)) - 1) with (Z.succ (Zpos (digits2_pos p) - 1)) by lia.
    rewrite !Z.pow_succ_r by lia. lia.
  - simpl. lia.
Qed.

Lemma Zdigits2_unique (m k : Z) :
  2 ^ (k - 1) <= m < 2 ^ k -> 0 < k -> Zdigits2 m = k.
Proof.
  intros [Hlo Hhi] Hk.
  assert (Hm : 0 < m) by (pose proof (Z.pow_pos_nonneg 2 (k - 1)); lia).
  destruct m as [|p|p]; try lia.
  simpl. pose proof (digits2_pos_bounds p) as [Hl Hh].
  set (d := Zpos (digits2_pos p)) in *.
  assert (d > 0) by (unfold d; lia).
  destruct (Z.lt_trichotomy d k) as [Hlt | [Heq | Hgt]]; auto.
  - assert (2 ^ d <= 2 ^ (k - 1)) by (apply Z.pow_le_mono_r; lia). lia.
  - assert (2 ^ k <= 2 ^ (d - 1)) by (apply Z.pow_le_mono_r; lia). lia.
Qed.

Lemma loc_of_shr_record_of_loc (m : Z) (l : location) :
  loc_of_shr_record (shr_record_of_loc m l) = l.
Proof. destruct l as [|[| |]]; reflexivity. Qed.

Lemma shr_m_shr_record_of_loc (m : Z) (l : location) :
  shr_m (shr_record_of_loc m l) = m.
Proof. destruct l as [|[| |]]; reflexivity. Qed.

Lemma shr_1_m (r : shr_record) :
  0 <= shr_m r -> shr_m (shr_1 r) = shr_m r / 2.
Proof.
  destruct r as [m rb sb]; simpl. intros Hm.
  destruct m as [|[p|p|]|p]; cbn [shr_m]; try lia; try reflexivity.
  - apply Z.div_unique with (r := 1); lia.
  - apply Z.div_unique with (r := 0); lia.
Qed.

Lemma pow2_xI (p : positive) : 2 ^ Zpos p~1 = 2 * (2 ^ Zpos p * 2 ^ Zpos p).
Proof.
  replace (Zpos p~1) with (1 + Zpos p + Zpos p) by lia.
  rewrite !Z.pow_add_r by lia. rewrite Z.pow_1_r. ring.
Qed.

Lemma pow2_xO (p : positive) : 2 ^ Zpos p~0 = 2 ^ Zpos p * 2 ^ Zpos p.
Proof.
  replace (Zpos p~0) with (Zpos p + Zpos p) by lia.
  rewrite !Z.pow_add_r by lia. ring.
Qed.

Lemma iter_pos_shr_1_m (p : positive) (r : shr_record) :
  0 <= shr_m r -> shr_m (SpecFloat.iter_pos shr_1 p r) = shr_m r / 2 ^ Zpos p.
Proof.
  revert r. induction p as [p IH | p IH | ]; intros r Hr; simpl SpecFloat.iter_pos.
  - assert (Hp : 0 < 2 ^ Zpos p) by (apply Z.pow_pos_nonneg; lia).
    assert (H1 : 0 <= shr_m (shr_1 r)) by (rewrite shr_1_m by auto; apply Z.div_pos; lia).
    assert (H2 : 0 <= shr_m (SpecFloat.iter_pos shr_1 p (shr_1 r))) by (rewrite IH by auto; apply Z.div_pos; lia).
    rewrite IH, IH, shr_1_m by auto.
    rewrite !Z.div_div by lia.
    f_equal. rewrite pow2_xI. ring.
  - assert (Hp : 0 < 2 ^ Zpos p) by (apply Z.pow_pos_nonneg; lia).
    assert (H2 : 0 <= shr_m (SpecFloat.iter_pos shr_1 p r)) by (rewrite IH by auto; apply Z.div_pos; lia).
    rewrite IH, IH by auto.
    rewrite !Z.div_div by lia.
    f_equal. rewrite pow2_xO. ring.
  - rewrite shr_1_m by auto. reflexivity.
Qed.

Lemma Zdigits2_bounds (q : Z) : 0 < q -> 2 ^ (Zdigits2 q - 1) <= q < 2 ^ Zdigits2 q.
Proof. destruct q as [|p|p]; try lia. intros _. apply digits2_pos_bounds. Qed.

Lemma Zdigits2_nonneg (q : Z) : 0 <= Zdigits2 q.
Proof. destruct q; simpl; lia. Qed.

Lemma Zdigits2_upper (q : Z) : 0 <= q -> q < 2 ^ Zdigits2 q.
Proof.
  intros Hq. destruct (Z.eq_dec q 0) as [-> | Hne]; [reflexivity |].
  apply Zdigits2_bounds. lia.
Qed.

Lemma shr_fexp_spec (q E : Z) (loc : location) :
  0 <= q -> -1074 <= E ->
  exists mrs',
    shr_fexp 53 1024 q E loc = (mrs', Z.max E (Zdigits2 q + E - 53)) /\
    shr_m mrs' = q / 2 ^ (Z.max E (Zdigits2 q + E - 53) - E) /\
    (Zdigits2 q <= 53 -> mrs' = shr_record_of_loc q loc) /\
    (Zdigits2 q = 54 -> mrs' = shr_1 (shr_record_of_loc q loc)).
Proof.
  intros Hq HE. unfold shr_fexp, shr, fexp, emin.
  replace (3 - 1024 - 53) with (-1074) by reflexivity.
  destruct (Z.max (Zdigits2 q + E - 53) (-1074) - E) as [|p|p] eqn:Hn.
  - exists (shr_record_of_loc q loc).
    replace (Z.max E (Zdigits2 q + E - 53)) with E by lia.
    rewrite Z.sub_diag, Z.pow_0_r, Z.div_1_r, shr_m_shr_record_of_loc.
    repeat split; auto. lia.
  - exists (SpecFloat.iter_pos shr_1 p (shr_record_of_loc q loc)).
    replace (Z.max E (Zdigits2 q + E - 53)) with (E + Zpos p) by lia.
    replace (E + Zpos p - E) with (Zpos p) by lia.
    rewrite iter_pos_shr_1_m by (rewrite shr_m_shr_record_of_loc; lia).
    rewrite shr_m_shr_record_of_loc.
    repeat split; auto; try lia.
    intros H54. assert (p = 1%positive) by lia. subst p. reflexivity.
  - exists (shr_record_of_loc q loc).
    replace (Z.max E (Zdigits2 q + E - 53)) with E by lia.
    rewrite Z.sub_diag, Z.pow_0_r, Z.div_1_r, shr_m_shr_record_of_loc.
    repeat split; auto. lia.
Qed.

Lemma shr_fexp_m_bound (q E : Z) :
  0 <= q -> 0 <= q / 2 ^ (Z.max E (Zdigits2 q + E - 53) - E) < 2 ^ 53.
Proof.
  intros Hq. set (n := Z.max E (Zdigits2 q + E - 53) - E).
  assert (Hn : 0 <= n) by lia.
  assert (Hp : 0 < 2 ^ n) by (apply Z.pow_pos_nonneg; lia).
  split; [apply Z.div_pos; lia |].
  apply Z.div_lt_upper_bound; [lia |].
  rewrite <- Z.pow_add_r by lia.
  pose proof (Zdigits2_upper q Hq).
  pose proof (Zdigits2_nonneg q).
  assert (2 ^ Zdigits2 q <= 2 ^ (n + 53)) by (apply Z.pow_le_mono_r; lia).
  lia.
Qed.

Lemma round_nearest_even_range (m : Z) (l : location) :
  m <= round_nearest_even m l <= m + 1.
Proof.
  destruct l as [|[| |]]; simpl; try lia. destruct (Z.even m); lia.
Qed.

(** The second rounding step on a mantissa below 2^53. *)
Lemma second_phase (r e' : Z) :
  0 <= r <= 2 ^ 53 -> -1074 <= e' ->
  (let '(mrs'', e'') := shr_fexp 53 1024 r e' loc_Exact in
   match shr_m mrs'' with
   | Z0 => S754_zero false
   | Zpos m => if e'' <=? 1024 - 53 then S754_finite false m e'' else S754_infinity false
   | Zneg _ => S754_nan
   end) =
  if r =? 0 then S754_zero false
  else if r =? 2 ^ 53 then
    if e' + 1 <=? 971 then S754_finite false (Z.to_pos (2 ^ 52)) (e' + 1) else S754_infinity false
  else
    if e' <=? 971 then S754_finite false (Z.to_pos r) e' else S754_infinity false.
Proof.
  intros Hr He.
  destruct (shr_fexp_spec r e' loc_Exact) as (mrs & Heq & Hm & H53 & H54); try lia.
  rewrite Heq.
  destruct (Z.eqb_spec r 0) as [-> | Hr0].
  - rewrite Hm. simpl Zdigits2. rewrite Z.div_0_l; [reflexivity |].
    apply Z.pow_nonzero; lia.
  - destruct (Z.eqb_spec r (2 ^ 53)) as [-> | Hr53].
    + assert (Hd : Zdigits2 (2 ^ 53) = 54) by reflexivity.
      rewrite Hd in *. rewrite (H54 eq_refl).
      replace (Z.max e' (54 + e' - 53)) with (e' + 1) by lia.
      reflexivity.
    + assert (Hd : Zdigits2 r <= 53).
      { pose proof (Zdigits2_bounds r ltac:(lia)) as [Hlo _].
        destruct (Z_le_gt_dec (Zdigits2 r) 53); auto.
        assert (2 ^ 53 <= 2 ^ (Zdigits2 r - 1)) by (apply Z.pow_le_mono_r; lia). lia. }
      rewrite (H53 Hd). 
      replace (Z.max e' (Zdigits2 r + e' - 53)) with e' by lia.
      simpl shr_m. destruct r as [|p|p]; try lia. reflexivity.
Qed.

Lemma binary_round_aux_spec (q E : Z) (loc : location) :
  0 <= q -> -1074 <= E ->
  exists mrs',
    binary_round_aux 53 1024 false q E loc =
      rounded_float (round_nearest_even (shr_m mrs') (loc_of_shr_record mrs'))
           (Z.max E (Zdigits2 q + E - 53)) /\
    shr_m mrs' = q / 2 ^ (Z.max E (Zdigits2 q + E - 53) - E) /\
    (Zdigits2 q <= 53 -> mrs' = shr_record_of_loc q loc) /\
    (Zdigits2 q = 54 -> mrs' = shr_1 (shr_record_of_loc q loc)).
Proof.
  intros Hq HE.
  destruct (shr_fexp_spec q E loc Hq HE) as (mrs & Heq & Hm & H53 & H54).
  exists mrs. repeat split; auto.
  unfold binary_round_aux. rewrite Heq.
  pose proof (shr_fexp_m_bound q E Hq) as Hb. rewrite <- Hm in Hb.
  pose proof (round_nearest_even_range (shr_m mrs) (loc_of_shr_record mrs)).
  apply second_phase; lia.
Qed.

Lemma gt_rounded_float (r e' : Z) :
  0 <= r <= 2 ^ 53 ->
  SFltb Py.lit_0_7 (rounded_float r e') =
    negb (r =? 0) && ((-53 <? e') || ((e' =? -53) && (6305039478318694 <? r))).
Proof.
  intros Hr. unfold rounded_float.
  destruct (Z.eqb_spec r 0) as [-> | Hr0]; [reflexivity |].
  cbn [negb andb].
  destruct (Z.eqb_spec r (2 ^ 53)) as [-> | Hr53].
  - destruct (Z.leb_spec (e' + 1) 971).
    + unfold SFltb, SFcompare, Py.lit_0_7.
      destruct (Z.compare_spec (-53) (e' + 1)); 
      destruct (Z.ltb_spec (-53) e'); destruct (Z.eqb_spec e' (-53)); try lia; reflexivity.
    + destruct (Z.ltb_spec (-53) e'); try lia. reflexivity.
  - destruct (Z.leb_spec e' 971).
    + unfold SFltb, SFcompare, Py.lit_0_7.
      destruct (Z.compare_spec (-53) e');
      destruct (Z.ltb_spec (-53) e'); destruct (Z.eqb_spec e' (-53)); try lia; try reflexivity.
      cbn [orb andb]. rewrite Pos.compare_cont_spec. cbn [Pos.switch_Eq].
      destruct r as [|p|p]; try lia. cbn [Z.to_pos].
      change (6305039478318694 <? Z.pos p) with (Pos.ltb 6305039478318694 p).
      unfold Pos.ltb. destruct (Pos.compare 6305039478318694 p); reflexivity.
    + destruct (Z.ltb_spec (-53) e'); try lia. reflexivity.
Qed.

Lemma new_location_spec (b rem : Z) :
  0 <= rem < b ->
  new_location b rem = if rem =? 0 then loc_Exact else loc_Inexact (2 * rem ?= b).
Proof.
  intros Hr. unfold new_location.
  destruct (Z.even b) eqn:Hev; unfold new_location_even, new_location_odd;
    destruct (Z.eqb_spec rem 0) as [-> | Hne]; try reflexivity.
  - f_equal.
    assert (Hodd : Z.odd b = true) by (rewrite <- Z.negb_even, Hev; reflexivity).
    apply Z.odd_spec in Hodd. destruct Hodd as [k Hk].
    destruct (Z.compare_spec (2 * rem + 1) b); destruct (Z.compare_spec (2 * rem) b);
      try reflexivity; lia.
Qed.

Lemma SFdiv_core_binary_spec (a b : positive) :
  let E := Z.min (Z.max (Zpos (digits2_pos a) - Zpos (digits2_pos b) - 53) (-1074)) 0 in
  SFdiv_core_binary 53 1024 (Zpos a) 0 (Zpos b) 0 =
    ((Zpos a * 2 ^ (- E)) / Zpos b, E, new_location (Zpos b) ((Zpos a * 2 ^ (- E)) mod Zpos b)).
Proof.
  intros E. unfold SFdiv_core_binary, fexp, emin.
  cbn [Zdigits2].
  replace (3 - 1024 - 53) with (-1074) by reflexivity.
  rewrite !Z.add_0_r, Z.sub_diag.
  fold E.
  assert (HE : E <= 0) by (unfold E; lia).
  assert (Hm : match 0 - E with
               | 0 => Zpos a
               | Zpos _ => Z.shiftl (Zpos a) (0 - E)
               | Zneg _ => 0
               end = Zpos a * 2 ^ (- E)).
  { replace (0 - E) with (- E) by lia.
    destruct (- E) as [|p|p] eqn:Hs; try lia.
    rewrite Z.shiftl_mul_pow2 by lia. reflexivity. }
  rewrite Hm.
  unfold Z.div, Z.modulo.
  destruct (Z.div_eucl (Zpos a * 2 ^ (- E)) (Zpos b)) as [q r]. reflexivity.
Qed.

Lemma digits2_pos_pow (p : positive) :
  exists P, 0 < P /\ P <= Zpos p < 2 * P /\ P = 2 ^ (Zpos (digits2_pos p) - 1).
Proof.
  exists (2 ^ (Zpos (digits2_pos p) - 1)).
  pose proof (digits2_pos_bounds p) as [Hlo Hhi].
  replace (Zpos (digits2_pos p)) with (Z.succ (Zpos (digits2_pos p) - 1)) in Hhi by lia.
  rewrite Z.pow_succ_r in Hhi by lia.
  repeat split; auto. apply Z.pow_pos_nonneg; lia.
Qed.

Lemma SFdiv_gt_0_7 (a b : positive) :
  SFltb Py.lit_0_7 (SFdiv 53 1024 (S754_finite false a 0) (S754_finite false b 0)) =
    (12610078956637389 * Zpos b <? 18014398509481984 * Zpos a).
Proof.
  unfold SFdiv. rewrite SFdiv_core_binary_spec. cbn [xorb].
  destruct (digits2_pos_pow a) as (P1 & HP1 & Ha & HP1e).
  destruct (digits2_pos_pow b) as (P2 & HP2 & Hb & HP2e).
  set (d1 := Zpos (digits2_pos a)) in *. set (d2 := Zpos (digits2_pos b)) in *.
  assert (Hd1 : 0 < d1) by (unfold d1; lia). assert (Hd2 : 0 < d2) by (unfold d2; lia).
  set (E := Z.min (Z.max (d1 - d2 - 53) (-1074)) 0).
  assert (HE : -1074 <= E <= 0) by (unfold E; lia).
  set (A := Zpos a * 2 ^ (- E)).
  assert (Hs : 0 < 2 ^ (- E)) by (apply Z.pow_pos_nonneg; lia).
  assert (HA : 0 < A) by (unfold A; lia).
  pose proof (Z.div_mod A (Zpos b) ltac:(lia)) as Hdm.
  pose proof (Z.mod_pos_bound A (Zpos b) ltac:(lia)) as Hrem.
  assert (Hq : 0 <= A / Zpos b) by (apply Z.div_pos; lia).
  set (q := A / Zpos b) in *. set (rem := A mod Zpos b) in *.
  destruct (binary_round_aux_spec q E (new_location (Zpos b) rem) Hq ltac:(lia))
    as (mrs & Hbra & Hm & H53 & H54).
  rewrite Hbra.
  pose proof (shr_fexp_m_bound q E Hq) as Hmb. rewrite <- Hm in Hmb.
  pose proof (round_nearest_even_range (shr_m mrs) (loc_of_shr_record mrs)) as Hrne.
  rewrite gt_rounded_float by lia.
  set (r := round_nearest_even (shr_m mrs) (loc_of_shr_record mrs)) in *.
  set (e' := Z.max E (Zdigits2 q + E - 53)) in *.
  destruct (Z_le_gt_dec 1 (d1 - d2)) as [Hbig | Hnbig].
  - (* the quotient is at least 1 *)
    assert (Hab : Zpos b < Zpos a).
    { assert (2 ^ (d2 - 1 + 1) <= 2 ^ (d1 - 1)) by (apply Z.pow_le_mono_r; lia).
      rewrite Z.pow_add_r, Z.pow_1_r in H by lia. lia. }
    assert (He' : -52 <= e') by (unfold e', E; lia).
    assert (Hr : 0 < r).
    { enough (0 < shr_m mrs) by lia. rewrite Hm.
      assert (Hn : 0 <= e' - E) by (unfold e'; lia).
      assert (Hpn : 0 < 2 ^ (e' - E)) by (apply Z.pow_pos_nonneg; lia).
      apply Z.div_str_pos. split; [lia |].
      assert (Hq1 : 1 <= q).
      { unfold q. apply Z.div_le_lower_bound; [lia |]. unfold A.
        assert (0 <= Zpos a * (2 ^ (- E) - 1)) by (apply Z.mul_nonneg_nonneg; lia).
        lia. }
      destruct (Z.max_spec E (Zdigits2 q + E - 53)) as [[Hlt Hmax] | [Hle Hmax]];
        fold e' in Hmax; rewrite Hmax.
      - pose proof (Zdigits2_bounds q ltac:(lia)) as [Hlo _].
        assert (2 ^ (Zdigits2 q + E - 53 - E) <= 2 ^ (Zdigits2 q - 1))
          by (apply Z.pow_le_mono_r; lia).
        lia.
      - rewrite Z.sub_diag. simpl. lia. }
    bool_arith.
  - destruct (Z_le_gt_dec (d1 - d2) (-2)) as [Hsmall | Hmid].
    + (* the quotient is below 1/2 *)
      assert (Hab : 2 * Zpos a < Zpos b).
      { assert (2 ^ (d1 - 1 + 2) <= 2 ^ (d2 - 1)) by (apply Z.pow_le_mono_r; lia).
        rewrite Z.pow_add_r in H by lia. change (2 ^ 2) with 4 in H. lia. }
      assert (HE55 : E <= -55) by (unfold E; lia).
      assert (Hqs : q < 2 ^ (- E - 1)).
      { unfold q. apply Z.div_lt_upper_bound; [lia |]. unfold A.
        assert (Hpow : 2 ^ (- E) = 2 * 2 ^ (- E - 1)).
        { rewrite <- Z.pow_succ_r by lia. f_equal. lia. }
        rewrite Hpow.
        assert (0 < 2 ^ (- E - 1)) by (apply Z.pow_pos_nonneg; lia).
        assert (0 < (Zpos b - 2 * Zpos a) * 2 ^ (- E - 1)) by (apply Z.mul_pos_pos; lia).
        lia. }
      assert (HD : Zdigits2 q <= - E - 1).
      { destruct (Z.eq_dec q 0) as [-> | Hq0]; [simpl; lia |].
        pose proof (Zdigits2_bounds q ltac:(lia)) as [Hlo _].
        destruct (Z_le_gt_dec (Zdigits2 q) (- E - 1)); auto.
        assert (2 ^ (- E - 1) <= 2 ^ (Zdigits2 q - 1)) by (apply Z.pow_le_mono_r; lia).
        lia. }
      assert (He' : e' <= -54) by (unfold e'; lia).
      bool_arith.
    + (* the quotient lies between 1/4 and 2 *)
      assert (HEv : E = d1 - d2 - 53) by (unfold E; lia).
      assert (Hrel : (d1 = d2 /\ Zpos b < 2 * Zpos a /\ Zpos a < 2 * Zpos b) \/
                     (d2 = d1 + 1 /\ Zpos a < Zpos b /\ Zpos b < 4 * Zpos a)).
      { destruct (Z.eq_dec d1 d2) as [Heq | Hne]; [left | right].
        - rewrite Heq in HP1e. lia.
        - assert (Hd : d2 = d1 + 1) by lia.
          rewrite Hd in HP2e. replace (d1 + 1 - 1) with (Z.succ (d1 - 1)) in HP2e by lia.
          rewrite Z.pow_succ_r in HP2e by lia. lia. }
      assert (HAv : (E = -53 /\ A = 9007199254740992 * Zpos a) \/
                    (E = -54 /\ A = 18014398509481984 * Zpos a)).
      { destruct Hrel as [(Hd & _) | (Hd & _)]; [left | right];
          (split; [lia |]); unfold A;
          [replace (- E) with 53 by lia | replace (- E) with 54 by lia]; lia. }
      assert (Hq52 : 4503599627370496 <= q < 18014398509481984).
      { split.
        - unfold q. apply Z.div_le_lower_bound; lia.
        - unfold q. apply Z.div_lt_upper_bound; lia. }
      clearbody q rem A E. clear Hbra Hm Hmb Hrne.
      assert (Hcmp : q < 6305039478318694 /\ 0 <= (6305039478318693 - q) * Zpos b \/
                     q = 6305039478318694 \/
                     6305039478318694 < q /\ 0 <= (q - 6305039478318695) * Zpos b).
      { destruct (Z.lt_trichotomy q 6305039478318694) as [Hl | [He | Hg]];
          [left | right; left | right; right]; auto;
          (split; [lia | apply Z.mul_nonneg_nonneg; lia]). }
      destruct (Z_lt_ge_dec q 9007199254740992) as [Hlt | Hge].
      * assert (HD : Zdigits2 q = 53) by (apply Zdigits2_unique; simpl; lia).
        assert (Hmrs := H53 ltac:(lia)).
        assert (Hqb : 0 <= (9007199254740991 - q) * Zpos b)
          by (apply Z.mul_nonneg_nonneg; lia).
        unfold r, e'. rewrite Hmrs, HD, shr_m_shr_record_of_loc,
          loc_of_shr_record_of_loc, new_location_spec by lia.
        destruct (Z.eqb_spec rem 0) as [Hr0 | Hr0];
          [| destruct (Z.compare_spec (2 * rem) (Zpos b))];
          cbn [round_nearest_even];
          try (destruct (Z.even q) eqn:Hev);
          destruct HAv as [(HE1 & HA1) | (HE1 & HA1)];
          destruct Hcmp as [(Hc & Hc') | [Hc | (Hc & Hc')]];
          try (subst q; discriminate Hev);
          bool_arith.
      * assert (HD : Zdigits2 q = 54) by (apply Zdigits2_unique; simpl; lia).
        assert (Hmrs := H54 HD).
        unfold r, e'. rewrite Hmrs, HD, new_location_spec by lia.
        clear Hcmp H53 H54 Hmrs HD r e'.
        assert (Hqb : 0 <= (q - 9007199254740992) * Zpos b)
          by (apply Z.mul_nonneg_nonneg; lia).
        assert (Hh : forall h, 0 < h ->
                     (h < 6305039478318694 /\ 0 <= (6305039478318693 - h) * Zpos b \/
                      h = 6305039478318694 \/
                      6305039478318694 < h /\ 0 <= (h - 6305039478318695) * Zpos b)).
        { intros h Hh0.
          destruct (Z.lt_trichotomy h 6305039478318694) as [Hl | [He | Hg]];
            [left | right; left | right; right]; auto;
            (split; [lia | apply Z.mul_nonneg_nonneg; lia]). }
        destruct q as [|[p|p|]|p]; try lia;
          specialize (Hh (Zpos p) ltac:(lia));
          (destruct (Z.eqb_spec rem 0) as [Hr0 | Hr0];
           [| destruct (Z.compare_spec (2 * rem) (Zpos b))]);
          cbn [shr_record_of_loc shr_1 shr_m loc_of_shr_record orb round_nearest_even];
          try (destruct (Z.even (Zpos p)) eqn:Hev);
          destruct HAv as [(HE1 & HA1) | (HE1 & HA1)];
          destruct Hh as [(Hc & Hc') | [Hc | (Hc & Hc')]];
          try (rewrite Hc in Hev; discriminate Hev);
          bool_arith.
Qed.

(** The quotient of two positive ints does not overflow below 2^1023. *)
Lemma SFdiv_finite (a b : positive) :
  Zpos a < 2 ^ 1023 * Zpos b ->
  forall s, SFdiv 53 1024 (S754_finite false a 0) (S754_finite false b 0)
            <> S754_infinity s.
Proof.
  intros Hab s. unfold SFdiv. rewrite SFdiv_core_binary_spec. cbn [xorb].
  set (E := Z.min (Z.max (Zpos (digits2_pos a) - Zpos (digits2_pos b) - 53) (-1074)) 0).
  assert (HE : -1074 <= E <= 0) by (unfold E; lia).
  set (A := Zpos a * 2 ^ (- E)).
  assert (Hs : 0 < 2 ^ (- E)) by (apply Z.pow_pos_nonneg; lia).
  assert (Hq : 0 <= A / Zpos b) by (apply Z.div_pos; unfold A; lia).
  set (q := A / Zpos b) in *.
  destruct (binary_round_aux_spec q E (new_location (Zpos b) (A mod Zpos b)) Hq ltac:(lia))
    as (mrs & Hbra & _). rewrite Hbra. clear Hbra.
  assert (Hqs : q < 2 ^ (1023 - E)).
  { unfold q. apply Z.div_lt_upper_bound; [lia |]. unfold A.
    replace (1023 - E) with (1023 + - E) by lia.
    rewrite Z.pow_add_r by lia.
    assert (0 < (2 ^ 1023 * Zpos b - Zpos a) * 2 ^ (- E)) by (apply Z.mul_pos_pos; lia).
    lia. }
  assert (HD : Zdigits2 q <= 1023 - E).
  { destruct (Z.eq_dec q 0) as [Hq0 | Hq0]; [rewrite Hq0; simpl; lia |].
    pose proof (Zdigits2_bounds q ltac:(lia)) as [Hlo _].
    destruct (Z_le_gt_dec (Zdigits2 q) (1023 - E)); auto.
    assert (2 ^ (1023 - E) <= 2 ^ (Zdigits2 q - 1)) by (apply Z.pow_le_mono_r; lia).
    lia. }
  unfold rounded_float.
  repeat match goal with
    | |- context [Z.eqb ?x ?y] => destruct (Z.eqb_spec x y)
    | |- context [Z.leb ?x ?y] => destruct (Z.leb_spec x y)
    end; try discriminate; lia.
Qed.

(** A negative quotient is never above 0.7. *)
Lemma SFdiv_negative_not_gt (a b : positive) :
  SFltb Py.lit_0_7 (SFdiv 53 1024 (S754_finite true a 0) (S754_finite false b 0)) = false.
Proof.
  unfold SFdiv.
  destruct (SFdiv_core_binary 53 1024 (Zpos a) 0 (Zpos b) 0) as [[mz ez] lz].
  cbn [xorb]. unfold binary_round_aux.
  destruct (shr_fexp 53 1024 mz ez lz) as [mrs' e'].
  destruct (shr_fexp 53 1024 _ e' loc_Exact) as [mrs'' e''].
  destruct (shr_m mrs''); try reflexivity.
  destruct (e'' <=? 1024 - 53); reflexivity.
Qed.

(** [a / b > 0.7] for a positive divisor, exactly: the quotient exceeds
    the midpoint between the float 0.7 and the next float. *)
Lemma truediv_gt_0_7 (a b : Z) (q : Py.float) :
  0 < b -> Py.truediv a b = inr q ->
  Py.float_gt q Py.lit_0_7 = (12610078956637389 * b <? 18014398509481984 * a).
Proof.
  intros Hb. unfold Py.truediv, Py.float_gt.
  destruct (Z.eqb_spec b 0) as [-> | _]; [lia |].
  destruct b as [|pb|pb]; try lia.
  destruct a as [|pa|pa].
  - cbn. intros [= <-]. reflexivity.
  - cbn [Py.float_of_int]. fold Py.prec Py.emax.
    pose proof (SFdiv_gt_0_7 pa pb) as Hgt.
    change (SFdiv 53 1024) with (SFdiv Py.prec Py.emax) in Hgt.
    destruct (SFdiv Py.prec Py.emax (S754_finite false pa 0) (S754_finite false pb 0));
      intros [= <-]; exact Hgt.
  - cbn [Py.float_of_int]. fold Py.prec Py.emax.
    pose proof (SFdiv_negative_not_gt pa pb) as Hgt.
    change (SFdiv 53 1024) with (SFdiv Py.prec Py.emax) in Hgt.
    assert (Hrhs : (12610078956637389 * Zpos pb <? 18014398509481984 * Zneg pa) = false)
      by (apply Z.ltb_ge; lia).
    rewrite Hrhs.
    destruct (SFdiv Py.prec Py.emax (S754_finite true pa 0) (S754_finite false pb 0));
      intros [= <-]; exact Hgt.
Qed.

Lemma truediv_returns (a b : Z) :
  0 <= a -> 0 < b -> a < 2 ^ 1023 * b -> exists q, Py.truediv a b = inr q.
Proof.
  intros Ha Hb Hab. unfold Py.truediv.
  destruct (Z.eqb_spec b 0) as [-> | _]; [lia |].
  destruct b as [|pb|pb]; try lia.
  destruct a as [|pa|pa]; try lia.
  - cbn. eauto.
  - cbn [Py.float_of_int].
    pose proof (SFdiv_finite pa pb Hab) as Hfin.
    change (SFdiv 53 1024) with (SFdiv Py.prec Py.emax) in Hfin.
    destruct (SFdiv Py.prec Py.emax (S754_finite false pa 0) (S754_finite false pb 0));
      eauto.
    exfalso. eapply Hfin. reflexivity.
Qed.

Lemma truediv_by_zero (a : Z) : Py.truediv a 0 = inl Py.ZeroDivisionError.
Proof. reflexivity. Qed.

(** Below 2^53 the float comparison is the comparison of the exact ratio
    with 7/10. *)
Lemma midpoint_small (a b : Z) :
  0 < b < 2 ^ 53 ->
  (12610078956637389 * b <? 18014398509481984 * a) = (7 * b <? 10 * a).
Proof.
  intros Hb. change (2 ^ 53) with 9007199254740992 in Hb.
  destruct (Z.ltb_spec (12610078956637389 * b) (18014398509481984 * a));
    destruct (Z.ltb_spec (7 * b) (10 * a)); try reflexivity; lia.
Qed.

(** A ratio of exactly 7/10 is never above the midpoint. *)
Lemma midpoint_exact (a b : Z) :
  0 < b -> 10 * a = 7 * b ->
  (12610078956637389 * b <? 18014398509481984 * a) = false.
Proof. intros Hb Hab. apply Z.ltb_ge. lia. Qed.

(** ** The handler's control flow *)

Lemma get_without_key (api_key : option string) (w : World) :
  Py.truthy_str api_key = false ->
  get api_key w = ([], inr (mkResponse (ErrorBody "API Key required") 400)).
Proof. intros Hk. unfold get. rewrite Hk. reflexivity. Qed.

Lemma get_with_key (api_key : option string) (w : World) :
  Py.truthy_str api_key = true ->
  get api_key w =
    match gw2_api w api_url (auth_headers api_key) with
    | inl e => ([HttpGet api_url (auth_headers api_key)], inl e)
    | inr ua =>
        ([HttpGet api_url (auth_headers api_key);
          QueryFilterIn (completed_ids ua); QueryExcludeIn (completed_ids ua)],
         match for_each (categorize (affinity (history w ua)) (in_progress ua))
                 (potential w ua) Recommendations.empty with
         | inl e => inl e
         | inr r => inr (mkResponse (RecommendationsBody r) 200)
         end)
    end.
Proof.
  intros Hk. unfold get. rewrite Hk. cbn [negb].
  unfold vbind, requests_get_json, objects_filter_in, objects_exclude_in, vlift, vret,
    history, potential.
  destruct (gw2_api w api_url (auth_headers api_key)) as [e | ua]; [reflexivity |].
  destruct (for_each _ _ _); reflexivity.
Qed.

(** A response with recommendations comes from a successful fetch and a
    scan that did not raise. *)
Lemma get_recommendations (api_key : option string) (w : World)
    (recs : Recommendations.t) (st : Z) :
  snd (get api_key w) = inr (mkResponse (RecommendationsBody recs) st) ->
  exists ua,
    gw2_api w api_url (auth_headers api_key) = inr ua /\
    for_each (categorize (affinity (history w ua)) (in_progress ua))
      (potential w ua) Recommendations.empty = inr recs.
Proof.
  destruct (Py.truthy_str api_key) eqn:Hk.
  - rewrite get_with_key by assumption.
    destruct (gw2_api w api_url (auth_headers api_key)) as [e | ua]; [discriminate |].
    cbn [snd]. destruct (for_each _ _ _) as [e | r] eqn:Hf; [discriminate |].
    intros [= -> _]. eauto.
  - rewrite get_without_key by assumption. discriminate.
Qed.

(** ** The scan *)

Lemma categorize_inv aff inp r0 ach r :
  categorize aff inp r0 ach = inr r ->
  exists t, nearly_complete_test (inp !! Achievement.gw2_id ach) = inr t /\
    r = append_section (section_of ach) (project inp ach)
          (if t then append_nearly_complete (project inp ach) r0 else r0).
Proof.
  unfold categorize, project.
  destruct (nearly_complete_test (inp !! Achievement.gw2_id ach)) as [e | t];
    cbn; [discriminate |].
  intros [= <-]. eauto.
Qed.

Lemma bucket_of_append_section s s' d r :
  bucket_of s (append_section s' d r) =
    bucket_of s r ++ (if match s' with Some x => section_eqb s x | None => false end
                      then [d] else []).
Proof.
  destruct s' as [[]|]; destruct s; cbn; rewrite ?app_nil_r; reflexivity.
Qed.

Lemma nearly_complete_append_section s' d r :
  Recommendations.nearly_complete (append_section s' d r) =
    Recommendations.nearly_complete r.
Proof. destruct s' as [[]|]; reflexivity. Qed.

Lemma bucket_of_append_nearly_complete s d r :
  bucket_of s (append_nearly_complete d r) = bucket_of s r.
Proof. destruct s; reflexivity. Qed.

(** What a scan that does not raise leaves in the buckets. *)
Lemma for_each_categorize aff inp l : forall r0 r,
  for_each (categorize aff inp) l r0 = inr r ->
  Recommendations.nearly_complete r =
    Recommendations.nearly_complete r0 ++
      List.map (project inp) (List.filter (passes_ratio inp) l) /\
  (forall s, bucket_of s r =
     bucket_of s r0 ++ List.map (project inp) (List.filter (in_section s) l)) /\
  Forall (fun a => exists t, nearly_complete_test (inp !! Achievement.gw2_id a) = inr t) l.
Proof.
  induction l as [| a l IH]; intros r0 r; cbn [for_each].
  - intros [= <-]. cbn. rewrite app_nil_r. repeat split; auto.
    intros s. rewrite app_nil_r. reflexivity.
  - unfold Py.bind at 1.
    destruct (categorize aff inp r0 a) as [e | r1] eqn:Hc; [discriminate |].
    intros Hrest. apply categorize_inv in Hc. destruct Hc as (t & Ht & ->).
    apply IH in Hrest. destruct Hrest as (Hn & Hs & Hall).
    split; [| split].
    + rewrite Hn, nearly_complete_append_section. cbn [List.filter].
      unfold passes_ratio at 2. rewrite Ht.
      destruct t; cbn; rewrite <- ?app_assoc; reflexivity.
    + intros s. rewrite Hs, bucket_of_append_section. cbn [List.filter].
      unfold in_section at 2.
      assert (Hb : bucket_of s (if t then append_nearly_complete (project inp a) r0 else r0)
                   = bucket_of s r0)
        by (destruct t; [apply bucket_of_append_nearly_complete | reflexivity]).
      rewrite Hb.
      destruct (section_of a) as [x |]; [destruct (section_eqb s x) |];
        cbn; rewrite <- ?app_assoc, ?app_nil_r; reflexivity.
    + constructor; eauto.
Qed.

(** A scan returns as soon as no ratio test raises. *)
Lemma for_each_categorize_returns aff inp l : forall r0,
  Forall (fun a => exists t, nearly_complete_test (inp !! Achievement.gw2_id a) = inr t) l ->
  exists r, for_each (categorize aff inp) l r0 = inr r.
Proof.
  induction l as [| a l IH]; intros r0 Hall; cbn [for_each].
  - eexists. reflexivity.
  - inversion Hall as [| ? ? (t & Ht) Hrest]; subst.
    unfold categorize at 1. rewrite Ht. cbn. apply IH. assumption.
Qed.

(** A scan raises as soon as one ratio test does; the exception is the one
    of some entry of the scan. *)
Lemma for_each_categorize_raises aff inp l : forall r0 a e,
  In a l -> nearly_complete_test (inp !! Achievement.gw2_id a) = inl e ->
  exists a' e', In a' l /\
    nearly_complete_test (inp !! Achievement.gw2_id a') = inl e' /\
    for_each (categorize aff inp) l r0 = inl e'.
Proof.
  induction l as [| b l IH]; intros r0 a e Hin Hraise; [destruct Hin |].
  cbn [for_each].
  destruct (nearly_complete_test (inp !! Achievement.gw2_id b)) as [e1 | t] eqn:Hb.
  - exists b, e1. split; [left; reflexivity |]. split; [assumption |].
    unfold categorize. rewrite Hb. reflexivity.
  - destruct Hin as [<- | Hin]; [congruence |].
    destruct (IH (append_section (section_of b) (project inp b)
                   (if t then append_nearly_complete (project inp b) r0 else r0))
                a e Hin Hraise) as (a' & e' & Hin' & He' & Hfor).
    exists a', e'. split; [right; assumption |]. split; [assumption |].
    unfold categorize at 1. rewrite Hb. cbn. exact Hfor.
Qed.

(** ** The progress snapshot *)

Lemma in_progress_fold (ua : list Progress.t) (i : Z) : forall m : gmap Z Progress.t,
  fold_left (fun m a => <[Progress.id a := a]> m)
    (List.filter (fun a => negb (is_done a)) ua) m !! i =
  match spec_progress_record ua i with
  | Some p => Some p
  | None => m !! i
  end.
Proof.
  unfold spec_progress_record.
  induction ua as [| a ua IH]; intros m; cbn [List.filter fold_left].
  - reflexivity.
  - destruct (is_done a); cbn [negb andb fold_left]; [apply IH |].
    rewrite IH. destruct (Z.eqb_spec (Progress.id a) i) as [Heq | Hne].
    + rewrite last_cons.
      destruct (last (List.filter _ ua)); [reflexivity |].
      rewrite <- Heq. apply lookup_insert_eq.
    + destruct (last (List.filter _ ua)); [reflexivity |].
      apply lookup_insert_ne. assumption.
Qed.

(** The dictionary [in_progress] holds, for each id, the last not-done
    record of the snapshot with that id. *)
Lemma in_progress_lookup (ua : list Progress.t) (i : Z) :
  in_progress ua !! i = spec_progress_record ua i.
Proof.
  unfold in_progress. rewrite in_progress_fold.
  destruct (spec_progress_record ua i); [reflexivity | apply lookup_empty].
Qed.

Lemma spec_progress_record_Some (ua : list Progress.t) (i : Z) (p : Progress.t) :
  spec_progress_record ua i = Some p ->
  In p ua /\ is_done p = false /\ Progress.id p = i.
Proof.
  unfold spec_progress_record. intros Hl.
  assert (Hin : In p (List.filter (fun a => negb (is_done a) && (Progress.id a =? i)) ua)).
  { apply list_elem_of_In. apply last_Some in Hl. destruct Hl as [l' ->].
    apply list_elem_of_In, in_or_app. right. left. reflexivity. }
  apply filter_In in Hin. destruct Hin as [Hin Hp].
  apply andb_true_iff in Hp. destruct Hp as [Hd Hi].
  apply negb_true_iff in Hd. apply Z.eqb_eq in Hi. auto.
Qed.

Lemma spec_progress_record_None (ua : list Progress.t) (i : Z) :
  spec_progress_record ua i = None <->
  forall p, In p ua -> Progress.id p = i -> is_done p = true.
Proof.
  unfold spec_progress_record. rewrite last_None. split.
  - intros Hnil p Hin Hid.
    destruct (is_done p) eqn:Hd; [reflexivity |].
    assert (Hf : In p (List.filter (fun a => negb (is_done a) && (Progress.id a =? i)) ua)).
    { apply filter_In. split; [assumption |]. rewrite Hd. cbn.
      apply Z.eqb_eq. assumption. }
    rewrite Hnil in Hf. destruct Hf.
  - intros Hall.
    destruct (List.filter _ ua) as [| p l] eqn:Hf; [reflexivity |].
    assert (Hin : In p (List.filter (fun a => negb (is_done a) && (Progress.id a =? i)) ua))
      by (rewrite Hf; left; reflexivity).
    apply filter_In in Hin. destruct Hin as [Hin Hp].
    apply andb_true_iff in Hp. destruct Hp as [Hd Hi].
    apply Z.eqb_eq in Hi. rewrite (Hall p Hin Hi) in Hd. discriminate.
Qed.

(** The completed ids are the ids of the records marked done. *)
Lemma completed_ids_In (ua : list Progress.t) (i : Z) :
  In i (completed_ids ua) <->
  exists p, In p ua /\ Progress.id p = i /\ Progress.done p = Some true.
Proof.
  unfold completed_ids. rewrite in_map_iff. split.
  - intros (p & Hid & Hp). apply filter_In in Hp. destruct Hp as [Hin Hdone].
    exists p. repeat split; auto.
    unfold is_done, Py.truthy_bool in Hdone.
    destruct (Progress.done p) as [[] |]; cbn in Hdone; congruence.
  - intros (p & Hin & Hid & Hdone). exists p. split; [assumption |].
    apply filter_In. split; [assumption |].
    unfold is_done, Py.truthy_bool. rewrite Hdone. reflexivity.
Qed.

Lemma int_in_In (x : Z) (xs : list Z) : Py.int_in x xs = true <-> In x xs.
Proof.
  unfold Py.int_in. rewrite existsb_exists. split.
  - intros (y & Hin & Heq). apply Z.eqb_eq in Heq. subst. assumption.
  - intros Hin. exists x. split; [assumption | apply Z.eqb_refl].
Qed.

(** ** The catalog queries *)

Lemma insert_by_name_perm le a l : Permutation (insert_by_name le a l) (a :: l).
Proof.
  induction l as [| b l IH]; cbn; [reflexivity |].
  destruct (le _ _); [reflexivity |].
  rewrite IH. apply perm_swap.
Qed.

Lemma order_by_name_perm le l : Permutation (order_by_name le l) l.
Proof.
  induction l as [| a l IH]; cbn; [reflexivity |].
  rewrite insert_by_name_perm. constructor. exact IH.
Qed.

Lemma order_by_name_In le l a : In a (order_by_name le l) <-> In a l.
Proof.
  split; apply Permutation_in; [| symmetry]; apply order_by_name_perm.
Qed.

Lemma potential_In w ua a :
  In a (potential w ua) <->
  In a (rows (objects w)) /\ ~ In (Achievement.gw2_id a) (completed_ids ua).
Proof.
  unfold potential, select_exclude_in.
  rewrite order_by_name_In, filter_In, negb_true_iff, <- not_true_iff_false, int_in_In.
  reflexivity.
Qed.

Lemma history_In w ua a :
  In a (history w ua) <->
  In a (rows (objects w)) /\ In (Achievement.gw2_id a) (completed_ids ua).
Proof.
  unfold history, select_filter_in.
  rewrite order_by_name_In, filter_In, int_in_In. reflexivity.
Qed.

Section Collation.
Variable le : string -> string -> bool.
Hypothesis le_total : forall x y, le x y = true \/ le y x = true.
Hypothesis le_trans : forall x y z, le x y = true -> le y z = true -> le x z = true.

Lemma insert_by_name_sorted a l :
  StronglySorted (by_name le) l -> StronglySorted (by_name le) (insert_by_name le a l).
Proof using le_total le_trans.
  induction 1 as [| b l Hs IH Hall]; cbn.
  - repeat constructor.
  - destruct (le (Achievement.name a) (Achievement.name b)) eqn:Hab.
    + constructor; [constructor; assumption |].
      constructor; [exact Hab |].
      rewrite List.Forall_forall in *. intros c Hc.
      specialize (Hall c Hc). unfold by_name in *. eauto.
    + constructor; [exact IH |].
      assert (Hba : by_name le b a) by (destruct (le_total (Achievement.name a) (Achievement.name b)); [congruence | assumption]).
      rewrite List.Forall_forall in *. intros c Hc.
      apply (Permutation_in _ (insert_by_name_perm le a l)) in Hc.
      destruct Hc as [<- | Hc]; auto.
Qed.

Lemma order_by_name_sorted l : StronglySorted (by_name le) (order_by_name le l).
Proof using le_total le_trans.
  induction l as [| a l IH]; cbn; [constructor |].
  apply insert_by_name_sorted. exact IH.
Qed.
End Collation.

Lemma StronglySorted_filter {A} (R : A -> A -> Prop) (f : A -> bool) (l : list A) :
  StronglySorted R l -> StronglySorted R (List.filter f l).
Proof.
  induction 1 as [| a l Hs IH Hall]; cbn; [constructor |].
  destruct (f a); [| exact IH].
  constructor; [exact IH |].
  rewrite List.Forall_forall in *. intros x Hx. apply filter_In in Hx. apply Hall, Hx.
Qed.

Lemma StronglySorted_map {A B} (R : B -> B -> Prop) (g : A -> B) (l : list A) :
  StronglySorted (fun x y => R (g x) (g y)) l -> StronglySorted R (List.map g l).
Proof.
  induction 1 as [| a l Hs IH Hall]; cbn; constructor; [exact IH |].
  rewrite List.Forall_forall in *. intros y Hy. apply in_map_iff in Hy.
  destruct Hy as (x & <- & Hx). apply Hall, Hx.
Qed.

Lemma NoDup_map_filter {A B} (g : A -> B) (f : A -> bool) (l : list A) :
  List.NoDup (List.map g l) -> List.NoDup (List.map g (List.filter f l)).
Proof.
  induction l as [| a l IH]; cbn; [auto |].
  intros Hnd. inversion Hnd as [| ? ? Hnotin Hrest]; subst.
  destruct (f a); cbn; [| auto].
  constructor; [| auto].
  intros Hin. apply Hnotin. apply in_map_iff in Hin. destruct Hin as (x & Hx & Hin).
  apply in_map_iff. exists x. split; [assumption |]. apply filter_In in Hin. apply Hin.
Qed.

Lemma NoDup_map_eq {A B} (g : A -> B) (l : list A) (x y : A) :
  List.NoDup (List.map g l) -> In x l -> In y l -> g x = g y -> x = y.
Proof.
  induction l as [| a l IH]; cbn; [tauto |].
  intros Hnd Hx Hy Hg. inversion Hnd as [| ? ? Hnotin Hrest]; subst.
  destruct Hx as [<- | Hx], Hy as [<- | Hy]; auto.
  - exfalso. apply Hnotin. rewrite Hg. apply in_map. assumption.
  - exfalso. apply Hnotin. rewrite <- Hg. apply in_map. assumption.
Qed.

Lemma potential_NoDup w ua :
  List.NoDup (List.map Achievement.gw2_id (rows (objects w))) ->
  List.NoDup (List.map Achievement.gw2_id (potential w ua)).
Proof.
  intros Hnd. unfold potential, select_exclude_in.
  eapply Permutation_NoDup.
  - apply Permutation_map. symmetry. apply order_by_name_perm.
  - apply NoDup_map_filter. exact Hnd.
Qed.

(** ** Membership in a bucket *)

Lemma listed_project inp i l :
  listed i (List.map (project inp) l) = true <->
  exists a, In a l /\ Achievement.gw2_id a = i.
Proof.
  unfold listed. rewrite existsb_exists. split.
  - intros (d & Hd & Hid). apply in_map_iff in Hd. destruct Hd as (a & <- & Ha).
    apply Z.eqb_eq in Hid. exists a. auto.
  - intros (a & Ha & Hid). exists (project inp a). split.
    + apply in_map. assumption.
    + apply Z.eqb_eq. exact Hid.
Qed.

(** ** The affinity estimator *)

Lemma filter_length_insert_by_name le (f : Achievement.t -> bool) a l :
  length (List.filter f (insert_by_name le a l)) = length (List.filter f (a :: l)).
Proof.
  induction l as [| b l IH]; cbn [insert_by_name]; [reflexivity |].
  destruct (le _ _); [reflexivity |].
  cbn [List.filter] in *. destruct (f b), (f a); cbn [length] in *; lia.
Qed.

Lemma filter_length_order_by_name le (f : Achievement.t -> bool) l :
  length (List.filter f (order_by_name le l)) = length (List.filter f l).
Proof.
  induction l as [| a l IH]; cbn [order_by_name fold_right]; [reflexivity |].
  rewrite filter_length_insert_by_name. cbn [List.filter].
  fold (order_by_name le l). destruct (f a); cbn [length]; lia.
Qed.

Lemma filter_filter_andb {A} (f g : A -> bool) (l : list A) :
  List.filter f (List.filter g l) = List.filter (fun x => g x && f x) l.
Proof.
  induction l as [| a l IH]; cbn; [reflexivity |].
  destruct (g a); cbn; [destruct (f a) |]; rewrite ?IH; reflexivity.
Qed.

Lemma count_category_fold (category : string) (l : list Achievement.t) :
  forall m : gmap string Z,
  fold_left count_category l m !! category =
    let n := Z.of_nat (length (List.filter
               (fun a => String.eqb (Achievement.category_name a) category) l)) in
    if n =? 0 then m !! category else Some (default 0 (m !! category) + n).
Proof.
  induction l as [| a l IH]; intros m; cbn [fold_left List.filter].
  - reflexivity.
  - rewrite IH. cbv zeta. unfold count_category.
    set (n := Z.of_nat (length (List.filter
      (fun a0 => String.eqb (Achievement.category_name a0) category) l))).
    assert (Hn : 0 <= n) by (unfold n; lia).
    destruct (String.eqb_spec (Achievement.category_name a) category) as [Heq | Hne].
    + rewrite Heq, lookup_insert_eq. cbn [length default].
      rewrite Nat2Z.inj_succ. fold n. clearbody n.
      generalize (default 0 (m !! category)). intros x.
      destruct (Z.eqb_spec n 0) as [H0 | H0];
        destruct (Z.eqb_spec (Z.succ n) 0); try lia; unfold id; f_equal; lia.
    + rewrite lookup_insert_ne by assumption. reflexivity.
Qed.

Lemma affinity_lookup (l : list Achievement.t) (category : string) :
  affinity l !! category =
    let n := Z.of_nat (length (List.filter
               (fun a => String.eqb (Achievement.category_name a) category) l)) in
    if n =? 0 then None else Some n.
Proof.
  unfold affinity. rewrite count_category_fold. cbv zeta.
  rewrite lookup_empty. cbn [default]. reflexivity.
Qed.

Lemma history_count (w : World) (ua : list Progress.t) (category : string) :
  Z.of_nat (length (List.filter
     (fun a => String.eqb (Achievement.category_name a) category) (history w ua))) =
  spec_completions (objects w) (completed_ids ua) category.
Proof.
  unfold history, select_filter_in, spec_completions.
  rewrite filter_length_order_by_name, filter_filter_andb. reflexivity.
Qed.

(** The computed score plays no part in the scan. *)
Lemma categorize_ignores_affinity aff aff' inp r ach :
  categorize aff inp r ach = categorize aff' inp r ach.
Proof. reflexivity. Qed.

Lemma for_each_ignores_affinity aff aff' inp l : forall r,
  for_each (categorize aff inp) l r = for_each (categorize aff' inp) l r.
Proof.
  induction l as [| a l IH]; intros r; cbn [for_each]; [reflexivity |].
  rewrite (categorize_ignores_affinity aff aff').
  destruct (categorize aff' inp r a); cbn; auto.
Qed.

Lemma in_section_iff s ach : in_section s ach = true <-> section_of ach = Some s.
Proof.
  unfold in_section. destruct (section_of ach) as [x |].
  - destruct s, x; cbn; split; congruence.
  - split; discriminate.
Qed.

Lemma passes_ratio_iff inp ach :
  passes_ratio inp ach = true <->
  nearly_complete_test (inp !! Achievement.gw2_id ach) = inr true.
Proof.
  unfold passes_ratio.
  destruct (nearly_complete_test _) as [e | []]; split; congruence.
Qed.

Lemma nearly_complete_test_Some p t :
  nearly_complete_test (Some p) = inr t <->
  exists q, Py.truediv (ratio_numerator p) (ratio_denominator p) = inr q /\
            t = Py.float_gt q Py.lit_0_7.
Proof.
  cbn [nearly_complete_test]. unfold Py.bind, Py.ret.
  destruct (Py.truediv _ _) as [e | q]; split.
  - discriminate.
  - intros (q & Hq & _). discriminate.
  - intros [= <-]. eauto.
  - intros (q' & [= <-] & ->). reflexivity.
Qed.

(** A successful request, unfolded: the snapshot it fetched and the scan
    it ran. *)
Lemma served_buckets (api_key : option string) (w : World)
    (recs : Recommendations.t) (st : Z) (ua : list Progress.t) :
  snd (get api_key w) = inr (mkResponse (RecommendationsBody recs) st) ->
  gw2_api w api_url (auth_headers api_key) = inr ua ->
  Recommendations.nearly_complete recs =
    List.map (project (in_progress ua))
      (List.filter (passes_ratio (in_progress ua)) (potential w ua)) /\
  (forall s, bucket_of s recs =
     List.map (project (in_progress ua)) (List.filter (in_section s) (potential w ua))) /\
  Forall (fun a => exists t,
     nearly_complete_test (in_progress ua !! Achievement.gw2_id a) = inr t)
    (potential w ua).
Proof.
  intros Hget Hapi. apply get_recommendations in Hget.
  destruct Hget as (ua' & Hapi' & Hfor).
  assert (ua' = ua) by congruence. subst ua'.
  apply for_each_categorize in Hfor. destruct Hfor as (Hn & Hs & Hall).
  split; [exact Hn |]. split; [| exact Hall].
  intros s. rewrite Hs. destruct s; reflexivity.
Qed.

Lemma all_buckets_In recs d :
  In d (all_buckets recs) <->
  In d (Recommendations.nearly_complete recs) \/ exists s, In d (bucket_of s recs).
Proof.
  unfold all_buckets. rewrite !in_app_iff. split.
  - intros [H | [H | [H | [H | H]]]]; auto;
      right; [exists Legendary | exists Pvp | exists Story | exists Exploration]; exact H.
  - intros [H | ([] & H)]; cbn in H; auto.
Qed.

(** Every projection in a bucket comes from an entry of the scan. *)
Lemma served_origin (api_key : option string) (w : World)
    (recs : Recommendations.t) (st : Z) (ua : list Progress.t) (d : AchData.t) :
  snd (get api_key w) = inr (mkResponse (RecommendationsBody recs) st) ->
  gw2_api w api_url (auth_headers api_key) = inr ua ->
  In d (all_buckets recs) ->
  exists ach, In ach (potential w ua) /\ d = project (in_progress ua) ach.
Proof.
  intros Hget Hapi Hd.
  destruct (served_buckets _ _ _ _ _ Hget Hapi) as (Hn & Hs & _).
  apply all_buckets_In in Hd. destruct Hd as [Hd | (s & Hd)].
  - rewrite Hn in Hd. apply in_map_iff in Hd. destruct Hd as (a & <- & Ha).
    apply filter_In in Ha. exists a. tauto.
  - rewrite Hs in Hd. apply in_map_iff in Hd. destruct Hd as (a & <- & Ha).
    apply filter_In in Ha. exists a. tauto.
Qed.

(** The handler returns its recommendations as soon as the fetch succeeds
    and every record met by the scan has a non-negative numerator and a
    positive denominator whose quotient is below 2^1023. *)
Lemma get_returns (api_key : option string) (w : World) (ua : list Progress.t) :
  Py.truthy_str api_key = true ->
  gw2_api w api_url (auth_headers api_key) = inr ua ->
  (forall ach p,
     In ach (potential w ua) ->
     spec_progress_record ua (Achievement.gw2_id ach) = Some p ->
     0 <= ratio_numerator p /\ 0 < ratio_denominator p /\
     ratio_numerator p < 2 ^ 1023 * ratio_denominator p) ->
  exists recs,
    get api_key w =
      ([HttpGet api_url (auth_headers api_key);
        QueryFilterIn (completed_ids ua); QueryExcludeIn (completed_ids ua)],
       inr (mkResponse (RecommendationsBody recs) 200)).
Proof.
  intros Hk Hapi Hsafe. rewrite get_with_key, Hapi by assumption.
  destruct (for_each_categorize_returns (affinity (history w ua)) (in_progress ua)
              (potential w ua) Recommendations.empty) as (recs & Hfor).
  - apply List.Forall_forall. intros ach Hin. rewrite in_progress_lookup.
    destruct (spec_progress_record ua (Achievement.gw2_id ach)) as [p |] eqn:Hp.
    + destruct (Hsafe ach p Hin Hp) as (Hnum & Hden & Hquot).
      destruct (truediv_returns _ _ Hnum Hden Hquot) as (q & Hq).
      exists (Py.float_gt q Py.lit_0_7). apply nearly_complete_test_Some. eauto.
    + exists false. reflexivity.
  - exists recs. rewrite Hfor. reflexivity.
Qed.

(** Whether an entry of the scan is listed in [nearly_complete] is decided
    by its ratio test alone. *)
Lemma listed_nearly_complete (api_key : option string) (w : World)
    (recs : Recommendations.t) (st : Z) (ua : list Progress.t) (ach : Achievement.t) :
  snd (get api_key w) = inr (mkResponse (RecommendationsBody recs) st) ->
  gw2_api w api_url (auth_headers api_key) = inr ua ->
  In ach (potential w ua) ->
  listed (Achievement.gw2_id ach) (Recommendations.nearly_complete recs) = true <->
  nearly_complete_test (spec_progress_record ua (Achievement.gw2_id ach)) = inr true.
Proof.
  intros Hget Hapi Hin.
  destruct (served_buckets _ _ _ _ _ Hget Hapi) as (Hn & _ & _).
  rewrite Hn, listed_project, <- in_progress_lookup, <- passes_ratio_iff. split.
  - intros (a & Ha & Hid). apply filter_In in Ha. destruct Ha as [_ Hp].
    unfold passes_ratio in *. rewrite <- Hid. exact Hp.
  - intros Hp. exists ach. split; [| reflexivity].
    apply filter_In. auto.
Qed.

(** With unique ids, an entry of the scan is listed in a section bucket
    exactly when the [if]/[elif] chain selects that section for it. *)
Lemma listed_section (api_key : option string) (w : World)
    (recs : Recommendations.t) (st : Z) (ua : list Progress.t) (ach : Achievement.t)
    (s : section_name) :
  snd (get api_key w) = inr (mkResponse (RecommendationsBody recs) st) ->
  gw2_api w api_url (auth_headers api_key) = inr ua ->
  List.NoDup (List.map Achievement.gw2_id (rows (objects w))) ->
  In ach (potential w ua) ->
  listed (Achievement.gw2_id ach) (bucket_of s recs) = true <-> section_of ach = Some s.
Proof.
  intros Hget Hapi Hnd Hin.
  destruct (served_buckets _ _ _ _ _ Hget Hapi) as (_ & Hs & _).
  rewrite Hs, listed_project, <- in_section_iff. split.
  - intros (a & Ha & Hid). apply filter_In in Ha. destruct Ha as [Ha Hsec].
    assert (a = ach); [| subst; assumption].
    exact (NoDup_map_eq Achievement.gw2_id (potential w ua) a ach
             (potential_NoDup w ua Hnd) Ha Hin Hid).
  - intros Hsec. exists ach. split; [| reflexivity].
    apply filter_In. auto.
Qed.

(** ** The claims *)

(** C1: for every catalog entry whose id is not in the completed-id set,
    the entry is in [nearly_complete] if and only if a not-done progress
    record with its id exists and that record's [current / max] is
    strictly greater than 0.7 ([current] read with default 0 and [max] with
    default 1).  The division and the comparison are Python's, on floats;
    for a positive [max] they amount to the quotient exceeding the
    midpoint 12610078956637389 / 2^54 between the float 0.7 and its
    successor, which for [max < 2^53] is the same as
    10 * current > 7 * max.  A ratio of exactly 7/10 is excluded, and an
    entry without a not-done record is never in [nearly_complete]. *)
Theorem C1_nearly_complete_iff_ratio_above_0_7
    (w : World) (api_key : option string) (recs : Recommendations.t) (st : Z)
    (ua : list Progress.t) (ach : Achievement.t) :
  snd (get api_key w) = inr (mkResponse (RecommendationsBody recs) st) ->
  gw2_api w api_url (auth_headers api_key) = inr ua ->
  In ach (rows (objects w)) ->
  ~ In (Achievement.gw2_id ach) (completed_ids ua) ->
  let i := Achievement.gw2_id ach in
  let nearly := listed i (Recommendations.nearly_complete recs) in
  (nearly = true <->
     exists p q, spec_progress_record ua i = Some p /\
       Py.truediv (default 0 (Progress.current p)) (default 1 (Progress.max p)) = inr q /\
       Py.float_gt q Py.lit_0_7 = true) /\
  (forall p c m,
     spec_progress_record ua i = Some p ->
     c = default 0 (Progress.current p) -> m = default 1 (Progress.max p) ->
     0 < m ->
     (nearly = true <-> 12610078956637389 * m < 18014398509481984 * c) /\
     (m < 2 ^ 53 -> (nearly = true <-> 7 * m < 10 * c)) /\
     (10 * c = 7 * m -> nearly = false)) /\
  (spec_progress_record ua i = None -> nearly = false).
Proof.
  intros Hget Hapi Hrow Hnotdone i nearly.
  assert (Hin : In ach (potential w ua)) by (apply potential_In; auto).
  pose proof (listed_nearly_complete _ _ _ _ _ _ Hget Hapi Hin) as Hiff.
  fold i in Hiff. fold nearly in Hiff.
  destruct (served_buckets _ _ _ _ _ Hget Hapi) as (_ & _ & Hall).
  rewrite List.Forall_forall in Hall. destruct (Hall ach Hin) as (t & Ht).
  rewrite in_progress_lookup in Ht. fold i in Ht.
  split; [| split].
  - rewrite Hiff. split.
    + destruct (spec_progress_record ua i) as [p |]; [| discriminate].
      intros Htest. apply nearly_complete_test_Some in Htest.
      destruct Htest as (q & Hq & Hgt). exists p, q. auto.
    + intros (p & q & -> & Hq & Hgt). apply nearly_complete_test_Some.
      exists q. auto.
  - intros p c m Hp Hc Hm Hm0. rewrite Hp in *.
    apply nearly_complete_test_Some in Ht. destruct Ht as (q & Hq & Ht).
    assert (Hnum : ratio_numerator p = c) by (symmetry; exact Hc).
    assert (Hden : ratio_denominator p = m) by (symmetry; exact Hm).
    rewrite Hnum, Hden in Hq.
    rewrite (truediv_gt_0_7 c m q Hm0 Hq) in Ht.
    assert (Hmid : nearly = true <-> 12610078956637389 * m < 18014398509481984 * c).
    { rewrite Hiff, nearly_complete_test_Some, <- Z.ltb_lt. split.
      - intros (q' & Hq' & Hgt). rewrite Hnum, Hden in Hq'.
        rewrite (truediv_gt_0_7 c m q' Hm0 Hq') in Hgt. congruence.
      - intros Hlt. exists q. rewrite Hnum, Hden. split; [assumption |].
        rewrite (truediv_gt_0_7 c m q Hm0 Hq). congruence. }
    split; [exact Hmid |]. split.
    + intros Hsmall. rewrite Hmid, <- !Z.ltb_lt, midpoint_small by lia. reflexivity.
    + intros Hexact. apply not_true_is_false. rewrite Hmid.
      pose proof (midpoint_exact c m Hm0 Hexact) as Hf. apply Z.ltb_ge in Hf. lia.
  - intros Hnone. apply not_true_is_false. rewrite Hiff, Hnone. discriminate.
Qed.

(** C2: with unique catalog ids, every scanned entry is listed in at most
    one of [legendary], [pvp], [story], [exploration], namely the first of
    the four whose test it passes; a legendary entry is in [legendary] and
    in none of the other three whatever its flags, group and category; its
    listing in [nearly_complete] depends on its ratio test only. *)
Theorem C2_sections_mutually_exclusive
    (w : World) (api_key : option string) (recs : Recommendations.t) (st : Z)
    (ua : list Progress.t) (ach : Achievement.t) :
  snd (get api_key w) = inr (mkResponse (RecommendationsBody recs) st) ->
  gw2_api w api_url (auth_headers api_key) = inr ua ->
  List.NoDup (List.map Achievement.gw2_id (rows (objects w))) ->
  In ach (potential w ua) ->
  let i := Achievement.gw2_id ach in
  (forall s1 s2, listed i (bucket_of s1 recs) = true ->
                 listed i (bucket_of s2 recs) = true -> s1 = s2) /\
  (listed i (Recommendations.legendary recs) = true <->
     Achievement.is_legendary ach = true) /\
  (listed i (Recommendations.pvp recs) = true <->
     Achievement.is_legendary ach = false /\
     Py.list_contains "Pvp" (Achievement.flags ach) = true) /\
  (listed i (Recommendations.story recs) = true <->
     Achievement.is_legendary ach = false /\
     Py.list_contains "Pvp" (Achievement.flags ach) = false /\
     Py.str_contains "Story" (Achievement.group_name ach) = true) /\
  (listed i (Recommendations.exploration recs) = true <->
     Achievement.is_legendary ach = false /\
     Py.list_contains "Pvp" (Achievement.flags ach) = false /\
     Py.str_contains "Story" (Achievement.group_name ach) = false /\
     Py.str_contains "Explorer" (Achievement.category_name ach) = true) /\
  (Achievement.is_legendary ach = true ->
     listed i (Recommendations.pvp recs) = false /\
     listed i (Recommendations.story recs) = false /\
     listed i (Recommendations.exploration recs) = false) /\
  (listed i (Recommendations.nearly_complete recs) = true <->
     nearly_complete_test (spec_progress_record ua i) = inr true).
Proof.
  intros Hget Hapi Hnd Hin i.
  pose proof (fun s => listed_section _ _ _ _ _ _ s Hget Hapi Hnd Hin) as Hsec.
  fold i in Hsec.
  pose proof (Hsec Legendary) as HL. pose proof (Hsec Pvp) as HP.
  pose proof (Hsec Story) as HS. pose proof (Hsec Exploration) as HE.
  cbn [bucket_of] in HL, HP, HS, HE.
  assert (Hnot : forall b, b <> true -> b = false) by (intros []; congruence).
  split; [intros s1 s2 H1 H2; apply Hsec in H1; apply Hsec in H2; congruence |].
  split; [rewrite HL; section_chain |].
  split; [rewrite HP; section_chain |].
  split; [rewrite HS; section_chain |].
  split; [rewrite HE; section_chain |].
  split.
  - intros Hleg.
    repeat split; apply Hnot; rewrite ?HP, ?HS, ?HE; unfold section_of;
      rewrite Hleg; discriminate.
  - apply (listed_nearly_complete _ _ _ _ _ _ Hget Hapi Hin).
Qed.

(** C3: the affinity map is the per-category count of the catalog rows
    whose id is among the ids marked done in the snapshot: a category with
    no completion is absent, each completed row adds 1 to the count of its
    category (from 0 when the category is new), and with no completed id
    the map is empty and the score of every entry gets nothing from it. *)
Theorem C3_affinity_counts_completions
    (w : World) (ua : list Progress.t) (category : string) :
  let n := spec_completions (objects w) (completed_ids ua) category in
  (forall i, In i (completed_ids ua) <->
     exists p, In p ua /\ Progress.id p = i /\ Progress.done p = Some true) /\
  affinity (history w ua) !! category = (if n =? 0 then None else Some n) /\
  (forall (l : list Achievement.t) (a : Achievement.t),
     affinity (l ++ [a]) !! Achievement.category_name a =
       Some (default 0 (affinity l !! Achievement.category_name a) + 1)) /\
  affinity (select_filter_in (objects w) []) = ∅ /\
  (forall ach : Achievement.t,
     default 0 (affinity (select_filter_in (objects w) []) !!
                  Achievement.category_name ach) = 0 /\
     score (affinity (select_filter_in (objects w) [])) ach =
       if Achievement.community_priority ach then 10 else 0).
Proof.
  intros n.
  assert (Hempty : affinity (select_filter_in (objects w) []) = ∅).
  { unfold select_filter_in.
    assert (Hnil : List.filter
              (fun a => Py.int_in (Achievement.gw2_id a) []) (rows (objects w)) = []).
    { induction (rows (objects w)) as [| a l IH]; [reflexivity | exact IH]. }
    rewrite Hnil. reflexivity. }
  split; [intros i; apply completed_ids_In |].
  split; [| split; [| split]].
  - rewrite affinity_lookup. cbv zeta. rewrite history_count. reflexivity.
  - intros l a. unfold affinity. rewrite fold_left_app. cbn [fold_left].
    unfold count_category at 1. apply lookup_insert_eq.
  - exact Hempty.
  - intros ach. unfold score. rewrite Hempty, lookup_empty. cbn [default].
    split; [reflexivity |]. destruct (Achievement.community_priority ach); reflexivity.
Qed.

(** C4: the score of an entry with [community_priority] set is the score
    of the same entry without it plus exactly 10, and the score without it
    is the affinity map's value at the entry's category, 0 when the
    category is absent. *)
Theorem C4_community_priority_adds_ten
    (affinity_map : gmap string Z) (ach : Achievement.t) :
  score affinity_map (Achievement.with_community_priority true ach) =
    score affinity_map (Achievement.with_community_priority false ach) + 10 /\
  score affinity_map (Achievement.with_community_priority false ach) =
    default 0 (affinity_map !! Achievement.category_name ach) /\
  score affinity_map ach =
    default 0 (affinity_map !! Achievement.category_name ach) +
    (if Achievement.community_priority ach then 10 else 0).
Proof.
  unfold score, Achievement.with_community_priority. cbn.
  repeat split. destruct (Achievement.community_priority ach); lia.
Qed.

(** C5: the progress shown for a scanned entry is resolved from the
    not-done record with the entry's id.  A scanned entry that belongs to
    a section is placed in that section's bucket, and one whose ratio test
    holds in [nearly_complete], as the projection built with the lookup of
    its id among the not-done records; and every element of every bucket
    is such a projection of a scanned entry, whose [progress] and [max]
    are the record's [current] and [max] when the lookup of its id finds a
    record (0 for a field the record lacks), and 0 and 1 when it finds
    none. *)
Theorem C5_progress_resolution
    (w : World) (api_key : option string) (recs : Recommendations.t) (st : Z)
    (ua : list Progress.t) :
  snd (get api_key w) = inr (mkResponse (RecommendationsBody recs) st) ->
  gw2_api w api_url (auth_headers api_key) = inr ua ->
  (forall ach s,
     In ach (potential w ua) -> section_of ach = Some s ->
     In (ach_data (spec_progress_record ua (Achievement.gw2_id ach)) ach)
        (bucket_of s recs)) /\
  (forall ach,
     In ach (potential w ua) ->
     nearly_complete_test (spec_progress_record ua (Achievement.gw2_id ach)) = inr true ->
     In (ach_data (spec_progress_record ua (Achievement.gw2_id ach)) ach)
        (Recommendations.nearly_complete recs)) /\
  (forall d, In d (all_buckets recs) ->
     (exists ach,
        In ach (potential w ua) /\
        d = ach_data (spec_progress_record ua (Achievement.gw2_id ach)) ach) /\
     match spec_progress_record ua (AchData.id d) with
     | Some p =>
         Progress.id p = AchData.id d /\ is_done p = false /\
         AchData.progress d = default 0 (Progress.current p) /\
         AchData.max d = default 0 (Progress.max p) /\
         (forall c, Progress.current p = Some c -> AchData.progress d = c) /\
         (forall m, Progress.max p = Some m -> AchData.max d = m)
     | None => AchData.progress d = 0 /\ AchData.max d = 1
     end).
Proof.
  intros Hget Hapi.
  destruct (served_buckets _ _ _ _ _ Hget Hapi) as (Hn & Hs & _).
  split; [| split].
  - intros ach s Hin Hsec. rewrite Hs, <- in_progress_lookup.
    apply (in_map (project (in_progress ua))).
    apply filter_In. split; [assumption | apply in_section_iff; assumption].
  - intros ach Hin Htest. rewrite Hn, <- in_progress_lookup.
    apply (in_map (project (in_progress ua))).
    apply filter_In. split; [assumption |].
    apply passes_ratio_iff. rewrite in_progress_lookup. assumption.
  - intros d Hd.
    destruct (served_origin _ _ _ _ _ _ Hget Hapi Hd) as (ach & Hin & ->).
    unfold project. rewrite in_progress_lookup. split; [eauto |].
    cbn [ach_data AchData.id].
    destruct (spec_progress_record ua (Achievement.gw2_id ach)) as [p |] eqn:Hp.
    + apply spec_progress_record_Some in Hp. destruct Hp as (_ & Hdone & Hid).
      cbn. repeat split; auto.
      * intros c ->. reflexivity.
      * intros m ->. reflexivity.
    + cbn. auto.
Qed.

(** C6: the bucketer scans only the catalog entries whose id is not in the
    completed-id set, so no projection in any of the five buckets carries
    the id of a record marked done. *)
Theorem C6_completed_never_recommended
    (w : World) (api_key : option string) (recs : Recommendations.t) (st : Z)
    (ua : list Progress.t) (d : AchData.t) :
  snd (get api_key w) = inr (mkResponse (RecommendationsBody recs) st) ->
  gw2_api w api_url (auth_headers api_key) = inr ua ->
  In d (all_buckets recs) ->
  ~ In (AchData.id d) (completed_ids ua) /\
  (forall p, In p ua -> Progress.id p = AchData.id d -> is_done p = false) /\
  (forall ach, In ach (potential w ua) ->
     ~ In (Achievement.gw2_id ach) (completed_ids ua)).
Proof.
  intros Hget Hapi Hd.
  destruct (served_origin _ _ _ _ _ _ Hget Hapi Hd) as (ach & Hin & ->).
  assert (Hnot : ~ In (AchData.id (project (in_progress ua) ach)) (completed_ids ua)).
  { apply potential_In in Hin. exact (proj2 Hin). }
  split; [exact Hnot |]. split.
  - intros p Hp Hid. destruct (is_done p) eqn:Hdone; [| reflexivity].
    exfalso. apply Hnot. rewrite <- Hid. unfold completed_ids.
    apply in_map. apply filter_In. auto.
  - intros a Ha. apply potential_In in Ha. exact (proj2 Ha).
Qed.

(** C7: without an API key ([None] or the empty string) the handler
    answers at once with the client error 400 and accesses neither the
    progress API nor the catalog: its access log is empty. *)
Theorem C7_missing_key_fails_first (w : World) (api_key : option string) :
  Py.truthy_str api_key = false ->
  get api_key w = ([], inr (mkResponse (ErrorBody "API Key required") 400)).
Proof. apply get_without_key. Qed.

Lemma truediv_raises (a b : Z) (e : Py.exn) :
  Py.truediv a b = inl e -> e = Py.ZeroDivisionError \/ e = Py.OverflowError.
Proof.
  unfold Py.truediv. destruct (b =? 0); [intros [= <-]; auto |].
  destruct (SFdiv _ _ _ _); intros [= <-]; auto.
Qed.

Lemma nearly_complete_test_raises (o : option Progress.t) (e : Py.exn) :
  nearly_complete_test o = inl e -> e = Py.ZeroDivisionError \/ e = Py.OverflowError.
Proof.
  destruct o as [p |]; cbn; [| discriminate].
  destruct (Py.truediv _ _) as [e' | q] eqn:Hdiv; cbn; [| discriminate].
  intros [= <-]. eapply truediv_raises. exact Hdiv.
Qed.

(** C8: the division of the ratio test is not guarded: a not-done record
    with [max = 0] makes the test raise [ZeroDivisionError] whatever its
    [current]; when the scan meets an entry with such a record the handler
    raises and returns no response; and there is such an input. *)
Theorem C8_zero_max_raises :
  (forall p : Progress.t, Progress.max p = Some 0 ->
     nearly_complete_test (Some p) = inl Py.ZeroDivisionError) /\
  (forall (w : World) (api_key : option string) (ua : list Progress.t)
          (ach : Achievement.t) (p : Progress.t),
     Py.truthy_str api_key = true ->
     gw2_api w api_url (auth_headers api_key) = inr ua ->
     In ach (potential w ua) ->
     spec_progress_record ua (Achievement.gw2_id ach) = Some p ->
     Progress.max p = Some 0 ->
     exists e, snd (get api_key w) = inl e /\
               (e = Py.ZeroDivisionError \/ e = Py.OverflowError)) /\
  (exists (w : World) (api_key : option string) (ua : list Progress.t) (p : Progress.t),
     gw2_api w api_url (auth_headers api_key) = inr ua /\
     In p ua /\ is_done p = false /\ Progress.max p = Some 0 /\
     snd (get api_key w) = inl Py.ZeroDivisionError).
Proof.
  assert (Hzero : forall p : Progress.t, Progress.max p = Some 0 ->
            nearly_complete_test (Some p) = inl Py.ZeroDivisionError).
  { intros p Hmax. cbn. unfold ratio_denominator. rewrite Hmax. reflexivity. }
  split; [exact Hzero |]. split.
  - intros w api_key ua ach p Hk Hapi Hin Hp Hmax.
    rewrite get_with_key, Hapi by assumption. cbn [snd].
    assert (Hraise : nearly_complete_test (in_progress ua !! Achievement.gw2_id ach)
                     = inl Py.ZeroDivisionError)
      by (rewrite in_progress_lookup, Hp; apply Hzero; assumption).
    destruct (for_each_categorize_raises (affinity (history w ua)) (in_progress ua)
                (potential w ua) Recommendations.empty ach _ Hin Hraise)
      as (a' & e' & _ & He' & Hfor).
    rewrite Hfor. exists e'. split; [reflexivity |].
    eapply nearly_complete_test_raises. exact He'.
  - exists zero_max_world, sample_key, [zero_max_record], zero_max_record.
    repeat split; try reflexivity. left. reflexivity.
Qed.

(** C9: each bucket is the scan, in its order, restricted to the entries
    that pass the bucket's test; the scan is the name-ordered query of the
    catalog, so with a total and transitive collation every bucket is
    ascending by name; the affinity map, hence the score, has no influence
    on the buckets. *)
Theorem C9_buckets_in_catalog_order
    (w : World) (api_key : option string) (recs : Recommendations.t) (st : Z)
    (ua : list Progress.t) :
  snd (get api_key w) = inr (mkResponse (RecommendationsBody recs) st) ->
  gw2_api w api_url (auth_headers api_key) = inr ua ->
  let scan := potential w ua in
  let le := name_le (objects w) in
  scan = order_by_name le
           (List.filter (fun a => negb (Py.int_in (Achievement.gw2_id a) (completed_ids ua)))
              (rows (objects w))) /\
  Recommendations.nearly_complete recs =
    List.map (project (in_progress ua)) (List.filter (passes_ratio (in_progress ua)) scan) /\
  (forall s, bucket_of s recs =
     List.map (project (in_progress ua)) (List.filter (in_section s) scan)) /\
  (forall affinity_map,
     for_each (categorize affinity_map (in_progress ua)) scan Recommendations.empty
       = inr recs) /\
  ((forall x y, le x y = true \/ le y x = true) ->
   (forall x y z, le x y = true -> le y z = true -> le x z = true) ->
   name_ascending le (List.map Achievement.name scan) /\
   name_ascending le (List.map AchData.name (Recommendations.nearly_complete recs)) /\
   (forall s, name_ascending le (List.map AchData.name (bucket_of s recs)))).
Proof.
  intros Hget Hapi scan le.
  destruct (served_buckets _ _ _ _ _ Hget Hapi) as (Hn & Hs & _).
  split; [reflexivity |]. split; [exact Hn |]. split; [exact Hs |]. split.
  - intros affinity_map. apply get_recommendations in Hget.
    destruct Hget as (ua' & Hapi' & Hfor).
    assert (ua' = ua) by congruence. subst ua'.
    rewrite <- Hfor. apply for_each_ignores_affinity.
  - intros Htotal Htrans.
    assert (Hscan : StronglySorted
              (fun a b => le (Achievement.name a) (Achievement.name b) = true) scan)
      by (apply order_by_name_sorted; assumption).
    assert (Hsub : forall f, name_ascending le
              (List.map AchData.name
                 (List.map (project (in_progress ua)) (List.filter f scan)))).
    { intros f. rewrite map_map. cbn [project ach_data AchData.name].
      apply StronglySorted_map with (g := Achievement.name).
      apply StronglySorted_filter. exact Hscan. }
    split; [| split].
    + apply StronglySorted_map with (g := Achievement.name). exact Hscan.
    + rewrite Hn. apply Hsub.
    + intros s. rewrite Hs. apply Hsub.
Qed.



(** ** The sample player *)

Lemma ascii_compare_refl (a : Ascii.ascii) : Ascii.compare a a = Eq.
Proof. unfold Ascii.compare. apply N.compare_refl. Qed.

Lemma ascii_compare_lt_trans (a b c : Ascii.ascii) :
  Ascii.compare a b = Lt -> Ascii.compare b c = Lt -> Ascii.compare a c = Lt.
Proof.
  unfold Ascii.compare. rewrite !N.compare_lt_iff. apply N.lt_trans.
Qed.

Lemma string_compare_lt_trans (s1 : string) : forall s2 s3,
  String.compare s1 s2 = Lt -> String.compare s2 s3 = Lt -> String.compare s1 s3 = Lt.
Proof.
  induction s1 as [| a s1 IH]; intros [| b s2] [| c s3]; cbn; try discriminate; auto.
  destruct (Ascii.compare a b) eqn:Hab; try discriminate;
    destruct (Ascii.compare b c) eqn:Hbc; try discriminate; intros H12 H23.
  - apply Ascii.compare_eq_iff in Hab. apply Ascii.compare_eq_iff in Hbc. subst.
    rewrite ascii_compare_refl. eapply IH; eassumption.
  - apply Ascii.compare_eq_iff in Hab. subst. rewrite Hbc. reflexivity.
  - apply Ascii.compare_eq_iff in Hbc. subst. rewrite Hab. reflexivity.
  - rewrite (ascii_compare_lt_trans a b c Hab Hbc). reflexivity.
Qed.

Lemma string_leb_trans (x y z : string) :
  String.leb x y = true -> String.leb y z = true -> String.leb x z = true.
Proof.
  unfold String.leb.
  destruct (String.compare x y) eqn:Hxy; try discriminate;
    destruct (String.compare y z) eqn:Hyz; try discriminate; intros _ _.
  - apply String.compare_eq_iff in Hxy. subst. rewrite Hyz. reflexivity.
  - apply String.compare_eq_iff in Hxy. subst. rewrite Hyz. reflexivity.
  - apply String.compare_eq_iff in Hyz. subst. rewrite Hxy. reflexivity.
  - rewrite (string_compare_lt_trans x y z Hxy Hyz). reflexivity.
Qed.

(** The scenarios of the specification, on the sample player. *)
Example scenario_A_exploration_only :
  sample_recommendations.(Recommendations.exploration) =
    [AchData.mk 1 "Maguuma Explorer" "Explore" "Explorer: Maguuma" 0 1] /\
  listed 1 (Recommendations.nearly_complete sample_recommendations) = false /\
  listed 1 (Recommendations.legendary sample_recommendations) = false /\
  listed 1 (Recommendations.pvp sample_recommendations) = false /\
  listed 1 (Recommendations.story sample_recommendations) = false.
Proof. repeat split. Qed.

Example scenario_B_legendary_only :
  listed 2 (Recommendations.legendary sample_recommendations) = true /\
  listed 2 (Recommendations.pvp sample_recommendations) = false.
Proof. split; reflexivity. Qed.

Example scenario_C_nearly_complete_and_pvp :
  listed 3 (Recommendations.nearly_complete sample_recommendations) = true /\
  listed 3 (Recommendations.pvp sample_recommendations) = true.
Proof. split; reflexivity. Qed.

Example scenario_D_affinity_from_completion :
  affinity (history sample_world sample_progress) !! "Slayer"%string = Some 1 /\
  score (affinity (history sample_world sample_progress)) wurm_slayer = 11.
Proof. split; vm_compute; reflexivity. Qed.

(** Seven of ten is 0.7 exactly for entry 6: not nearly complete. *)
Example exactly_0_7_excluded :
  listed 6 (Recommendations.nearly_complete sample_recommendations) = false /\
  listed 6 (Recommendations.story sample_recommendations) = true.
Proof. split; reflexivity. Qed.

(** Beyond 2^53 the float test and the exact ratio part ways: this ratio
    is above 7/10 and its float is 0.7. *)
Example float_ratio_rounds_to_0_7 :
  7 * 9007199254740997 < 10 * 6305039478318698 /\
  Py.truediv 6305039478318698 9007199254740997 = inr Py.lit_0_7 /\
  Py.float_gt Py.lit_0_7 Py.lit_0_7 = false.
Proof. repeat split; vm_compute; reflexivity. Qed.

(** Scenario C: 8 of 10 is above 0.7, so the entry is nearly complete. *)
Lemma C1_witness :
  (snd (get sample_key sample_world) =
     inr (mkResponse (RecommendationsBody sample_recommendations) 200) /\
   gw2_api sample_world api_url (auth_headers sample_key) = inr sample_progress /\
   In arena_slayer (rows (objects sample_world)) /\
   ~ In (Achievement.gw2_id arena_slayer) (completed_ids sample_progress)) /\
  (listed 3 (Recommendations.nearly_complete sample_recommendations) = true <->
   7 * 10 < 10 * 8).
Proof.
  assert (H1 : snd (get sample_key sample_world) =
            inr (mkResponse (RecommendationsBody sample_recommendations) 200))
    by (vm_compute; reflexivity).
  assert (H2 : gw2_api sample_world api_url (auth_headers sample_key) = inr sample_progress)
    by reflexivity.
  assert (H3 : In arena_slayer (rows (objects sample_world)))
    by (cbn; auto).
  assert (H4 : ~ In (Achievement.gw2_id arena_slayer) (completed_ids sample_progress))
    by (cbn; intros [H | []]; discriminate H).
  split; [auto |].
  destruct (C1_nearly_complete_iff_ratio_above_0_7 sample_world sample_key
              sample_recommendations 200 sample_progress arena_slayer H1 H2 H3 H4)
    as (_ & Hrecord & _).
  destruct (Hrecord arena_record 8 10) as (_ & Hsmall & _);
    try reflexivity; try lia.
  apply Hsmall. reflexivity.
Defined.

(** Scenario B: a legendary entry flagged "Pvp" is in [legendary] only. *)
Lemma C2_witness :
  (snd (get sample_key sample_world) =
     inr (mkResponse (RecommendationsBody sample_recommendations) 200) /\
   gw2_api sample_world api_url (auth_headers sample_key) = inr sample_progress /\
   List.NoDup (List.map Achievement.gw2_id (rows (objects sample_world))) /\
   In legendary_duelist (potential sample_world sample_progress)) /\
  (listed 2 (Recommendations.legendary sample_recommendations) = true /\
   listed 2 (Recommendations.pvp sample_recommendations) = false /\
   listed 2 (Recommendations.story sample_recommendations) = false /\
   listed 2 (Recommendations.exploration sample_recommendations) = false).
Proof.
  assert (H1 : snd (get sample_key sample_world) =
            inr (mkResponse (RecommendationsBody sample_recommendations) 200))
    by (vm_compute; reflexivity).
  assert (H2 : gw2_api sample_world api_url (auth_headers sample_key) = inr sample_progress)
    by reflexivity.
  assert (H3 : List.NoDup (List.map Achievement.gw2_id (rows (objects sample_world))))
    by (cbn; repeat (constructor; [cbn; intuition discriminate |]); constructor).
  assert (H4 : In legendary_duelist (potential sample_world sample_progress))
    by (vm_compute; auto 10).
  split; [auto |].
  destruct (C2_sections_mutually_exclusive sample_world sample_key
              sample_recommendations 200 sample_progress legendary_duelist H1 H2 H3 H4)
    as (_ & Hleg & _ & _ & _ & Hothers & _).
  split; [apply Hleg; reflexivity | apply Hothers; reflexivity].
Defined.

(** The sample response shows the arena entry with the record's 8 and 10
    in [pvp] and in [nearly_complete], and the explorer entry, for which
    the player has no record, with 0 and 1 in [exploration]. *)
Lemma C5_witness :
  (snd (get sample_key sample_world) =
     inr (mkResponse (RecommendationsBody sample_recommendations) 200) /\
   gw2_api sample_world api_url (auth_headers sample_key) = inr sample_progress) /\
  (In (AchData.mk 3 "Arena Slayer" "Win" "Slayer" 8 10)
      (Recommendations.pvp sample_recommendations) /\
   In (AchData.mk 3 "Arena Slayer" "Win" "Slayer" 8 10)
      (Recommendations.nearly_complete sample_recommendations) /\
   In (AchData.mk 1 "Maguuma Explorer" "Explore" "Explorer: Maguuma" 0 1)
      (Recommendations.exploration sample_recommendations) /\
   forall d, In d (all_buckets sample_recommendations) -> AchData.id d = 6 ->
     AchData.progress d = 7 /\ AchData.max d = 10).
Proof.
  assert (H1 : snd (get sample_key sample_world) =
            inr (mkResponse (RecommendationsBody sample_recommendations) 200))
    by (vm_compute; reflexivity).
  assert (H2 : gw2_api sample_world api_url (auth_headers sample_key) = inr sample_progress)
    by reflexivity.
  split; [auto |].
  destruct (C5_progress_resolution sample_world sample_key sample_recommendations 200
              sample_progress H1 H2) as (Hsection & Hnearly & Hresolved).
  assert (Ha : In arena_slayer (potential sample_world sample_progress))
    by (vm_compute; auto).
  assert (Hm : In maguuma_explorer (potential sample_world sample_progress))
    by (vm_compute; auto).
  split; [exact (Hsection arena_slayer Pvp Ha eq_refl) |].
  split; [exact (Hnearly arena_slayer Ha eq_refl) |].
  split; [exact (Hsection maguuma_explorer Exploration Hm eq_refl) |].
  intros d Hd Hid. destruct (Hresolved d Hd) as (_ & Hfields).
  rewrite Hid in Hfields. destruct Hfields as (_ & _ & _ & _ & Hcur & Hmax).
  split; [apply Hcur | apply Hmax]; reflexivity.
Defined.

(** The completed entry 4 is in no bucket; the listed entry 3 is not
    completed. *)
Lemma C6_witness :
  (snd (get sample_key sample_world) =
     inr (mkResponse (RecommendationsBody sample_recommendations) 200) /\
   gw2_api sample_world api_url (auth_headers sample_key) = inr sample_progress /\
   In (project (in_progress sample_progress) arena_slayer)
      (all_buckets sample_recommendations)) /\
  ~ In 3 (completed_ids sample_progress).
Proof.
  assert (H1 : snd (get sample_key sample_world) =
            inr (mkResponse (RecommendationsBody sample_recommendations) 200))
    by (vm_compute; reflexivity).
  assert (H2 : gw2_api sample_world api_url (auth_headers sample_key) = inr sample_progress)
    by reflexivity.
  assert (H3 : In (project (in_progress sample_progress) arena_slayer)
                 (all_buckets sample_recommendations))
    by (vm_compute; auto).
  split; [auto |].
  exact (proj1 (C6_completed_never_recommended sample_world sample_key
                  sample_recommendations 200 sample_progress _ H1 H2 H3)).
Defined.

Lemma C7_witness :
  Py.truthy_str None = false /\
  get None sample_world = ([], inr (mkResponse (ErrorBody "API Key required") 400)).
Proof.
  split; [reflexivity |].
  apply (C7_missing_key_fails_first sample_world None). reflexivity.
Defined.

Lemma C8_witness :
  Progress.max zero_max_record = Some 0 /\
  nearly_complete_test (Some zero_max_record) = inl Py.ZeroDivisionError.
Proof.
  split; [reflexivity |].
  apply (proj1 C8_zero_max_raises). reflexivity.
Defined.

(** The scan of the sample catalog, and so each bucket, is ascending by
    name. *)
Lemma C9_witness :
  (snd (get sample_key sample_world) =
     inr (mkResponse (RecommendationsBody sample_recommendations) 200) /\
   gw2_api sample_world api_url (auth_headers sample_key) = inr sample_progress) /\
  (name_ascending String.leb
     (List.map Achievement.name (potential sample_world sample_progress)) /\
   name_ascending String.leb
     (List.map AchData.name (Recommendations.nearly_complete sample_recommendations)) /\
   name_ascending String.leb
     (List.map AchData.name (Recommendations.pvp sample_recommendations))).
Proof.
  assert (H1 : snd (get sample_key sample_world) =
            inr (mkResponse (RecommendationsBody sample_recommendations) 200))
    by (vm_compute; reflexivity).
  assert (H2 : gw2_api sample_world api_url (auth_headers sample_key) = inr sample_progress)
    by reflexivity.
  split; [auto |].
  destruct (C9_buckets_in_catalog_order sample_world sample_key
              sample_recommendations 200 sample_progress H1 H2)
    as (_ & _ & _ & _ & Hsorted).
  destruct (Hsorted String.leb_total string_leb_trans) as (Hscan & Hnearly & Hsections).
  split; [exact Hscan |]. split; [exact Hnearly | exact (Hsections Pvp)].
Defined.



(** * Further properties of the handler *)

(** ** Outcomes of a request *)

(** X1: when the fetch of the progress snapshot raises, the handler raises
    the same exception and has made the HTTP request only: the catalog is
    not queried. *)
Theorem X1_fetch_failure_propagates
    (w : World) (api_key : option string) (e : Py.exn) :
  Py.truthy_str api_key = true ->
  gw2_api w api_url (auth_headers api_key) = inl e ->
  get api_key w = ([HttpGet api_url (auth_headers api_key)], inl e).
Proof.
  intros Hk Hapi. rewrite get_with_key, Hapi by assumption. reflexivity.
Qed.

(** X2: the handler answers 400 exactly when no key is supplied and 200
    otherwise; the 400 body is the error message and the 200 body holds the
    buckets. *)
Theorem X2_status_codes (w : World) (api_key : option string) (resp : Response) :
  snd (get api_key w) = inr resp ->
  (Py.truthy_str api_key = false /\
   resp = mkResponse (ErrorBody "API Key required") 400) \/
  (Py.truthy_str api_key = true /\ status resp = 200 /\
   exists ua recs,
     gw2_api w api_url (auth_headers api_key) = inr ua /\
     data resp = RecommendationsBody recs /\
     for_each (categorize (affinity (history w ua)) (in_progress ua))
       (potential w ua) Recommendations.empty = inr recs).
Proof.
  destruct (Py.truthy_str api_key) eqn:Hk.
  - rewrite get_with_key by assumption. intros Hget. right.
    destruct (gw2_api w api_url (auth_headers api_key)) as [e | ua]; [discriminate |].
    cbn [snd] in Hget.
    destruct (for_each _ _ _) as [e | recs] eqn:Hfor; [discriminate |].
    injection Hget as <-. repeat split. exists ua, recs. auto.
  - rewrite get_without_key by assumption. intros [= <-]. left. auto.
Qed.

(** The loop over the scanned entries raises only where a ratio test
    raises. *)
Lemma for_each_categorize_raised aff inp l e : forall r0,
  for_each (categorize aff inp) l r0 = inl e ->
  exists ach, In ach l /\ nearly_complete_test (inp !! Achievement.gw2_id ach) = inl e.
Proof.
  induction l as [| a l IH]; intros r0; cbn [for_each]; [discriminate |].
  destruct (nearly_complete_test (inp !! Achievement.gw2_id a)) as [e1 | t] eqn:Ha.
  - unfold categorize. rewrite Ha. cbn. intros [= ->].
    exists a. split; [left; reflexivity | assumption].
  - unfold categorize at 1. rewrite Ha. cbn. intros Hrest.
    destruct (IH _ Hrest) as (ach & Hin & Hraise).
    exists ach. split; [right; assumption | assumption].
Qed.

(** X3: once the snapshot is fetched, the loop over the scanned entries
    runs to its end if and only if the ratio test raises for no scanned
    entry; and a request that returns a response has made the HTTP request
    and then the two catalog queries, both with the completed ids and the
    filter first, and its response holds the buckets that loop built. *)
Theorem X3_scan_completes_iff_no_test_raises
    (w : World) (api_key : option string) (ua : list Progress.t) :
  Py.truthy_str api_key = true ->
  gw2_api w api_url (auth_headers api_key) = inr ua ->
  ((exists recs,
      for_each (categorize (affinity (history w ua)) (in_progress ua))
        (potential w ua) Recommendations.empty = inr recs) <->
   (forall ach, In ach (potential w ua) ->
      exists t, nearly_complete_test
                  (spec_progress_record ua (Achievement.gw2_id ach)) = inr t)) /\
  (forall resp, snd (get api_key w) = inr resp ->
     fst (get api_key w) =
       [HttpGet api_url (auth_headers api_key);
        QueryFilterIn (completed_ids ua); QueryExcludeIn (completed_ids ua)] /\
     exists recs,
       for_each (categorize (affinity (history w ua)) (in_progress ua))
         (potential w ua) Recommendations.empty = inr recs /\
       resp = mkResponse (RecommendationsBody recs) 200).
Proof.
  intros Hk Hapi. split.
  - split.
    + intros (recs & Hfor).
      apply for_each_categorize in Hfor. destruct Hfor as (_ & _ & Hall).
      rewrite List.Forall_forall in Hall. intros ach Hin.
      rewrite <- in_progress_lookup. auto.
    + intros Hall.
      apply for_each_categorize_returns.
      apply List.Forall_forall. intros ach Hin. rewrite in_progress_lookup. auto.
  - intros resp. rewrite get_with_key, Hapi by assumption. cbn [fst snd].
    destruct (for_each _ _ _) as [e | recs]; [discriminate |].
    intros [= <-]. split; [reflexivity |]. exists recs. auto.
Qed.

(** X4: the loop over the scanned entries raises only a zero denominator
    ([ZeroDivisionError]), met at a scanned entry whose record carries
    [max = 0], or a quotient too large for a float ([OverflowError]), met
    at a scanned entry whose record has a non-zero [max]. *)
Theorem X4_scan_exceptions
    (w : World) (ua : list Progress.t) (affinity_map : gmap string Z) (e : Py.exn) :
  for_each (categorize affinity_map (in_progress ua))
    (potential w ua) Recommendations.empty = inl e ->
  exists ach p,
    In ach (potential w ua) /\
    spec_progress_record ua (Achievement.gw2_id ach) = Some p /\
    ((e = Py.ZeroDivisionError /\ Progress.max p = Some 0) \/
     (e = Py.OverflowError /\ default 1 (Progress.max p) <> 0)).
Proof.
  intros Hfor.
  destruct (for_each_categorize_raised _ _ _ _ _ Hfor) as (ach & Hin & Hraise).
  rewrite in_progress_lookup in Hraise.
  destruct (spec_progress_record ua (Achievement.gw2_id ach)) as [p |] eqn:Hp;
    [| discriminate].
  exists ach, p. split; [assumption |]. split; [exact Hp |].
  cbn [nearly_complete_test] in Hraise. unfold Py.bind in Hraise.
  destruct (Py.truediv (ratio_numerator p) (ratio_denominator p)) as [e1 | q] eqn:Hdiv;
    [| discriminate].
  injection Hraise as ->. unfold Py.truediv, ratio_denominator in Hdiv.
  destruct (Z.eqb_spec (default 1 (Progress.max p)) 0) as [Hz | Hnz].
  - injection Hdiv as <-. left. split; [reflexivity |].
    destruct (Progress.max p) as [m |]; cbn in Hz; [congruence | discriminate].
  - right. split; [| assumption].
    destruct (SFdiv _ _ _ _); congruence.
Qed.


(** ** The catalog seen by a request *)

Lemma filter_negb_perm {A} (f : A -> bool) (l : list A) :
  Permutation (List.filter f l ++ List.filter (fun a => negb (f a)) l) l.
Proof.
  induction l as [| a l IH]; cbn; [constructor |].
  destruct (f a); cbn.
  - constructor. exact IH.
  - rewrite <- Permutation_middle. constructor. exact IH.
Qed.

(** X5: the rows counted for the affinity and the rows scanned for the
    buckets split the catalog: together they are a rearrangement of the
    catalog rows, and no row is in both. *)
Theorem X5_history_and_scan_split_catalog (w : World) (ua : list Progress.t) :
  Permutation (history w ua ++ potential w ua) (rows (objects w)) /\
  (forall a, In a (history w ua) -> In a (potential w ua) -> False) /\
  (length (history w ua) + length (potential w ua) = length (rows (objects w)))%nat.
Proof.
  assert (Hperm : Permutation (history w ua ++ potential w ua) (rows (objects w))).
  { unfold history, potential, select_filter_in, select_exclude_in.
    rewrite !order_by_name_perm. apply filter_negb_perm. }
  split; [exact Hperm |]. split.
  - intros a Hh Hp. apply history_In in Hh. apply potential_In in Hp. tauto.
  - rewrite <- length_app. apply Permutation_length. exact Hperm.
Qed.

Lemma map_id_project inp l :
  List.map AchData.id (List.map (project inp) l) = List.map Achievement.gw2_id l.
Proof. rewrite map_map. reflexivity. Qed.

(** X6: with unique catalog ids no bucket lists an entry twice: the ids in
    each of the five buckets are pairwise distinct. *)
Theorem X6_no_duplicates_in_a_bucket
    (w : World) (api_key : option string) (recs : Recommendations.t) (st : Z) :
  snd (get api_key w) = inr (mkResponse (RecommendationsBody recs) st) ->
  List.NoDup (List.map Achievement.gw2_id (rows (objects w))) ->
  List.NoDup (List.map AchData.id (Recommendations.nearly_complete recs)) /\
  (forall s, List.NoDup (List.map AchData.id (bucket_of s recs))).
Proof.
  intros Hget Hnd.
  destruct (get_recommendations _ _ _ _ Hget) as (ua & Hapi & _).
  destruct (served_buckets _ _ _ _ _ Hget Hapi) as (Hn & Hs & _).
  pose proof (potential_NoDup w ua Hnd) as Hscan.
  split.
  - rewrite Hn, map_id_project. apply NoDup_map_filter. exact Hscan.
  - intros s. rewrite Hs, map_id_project. apply NoDup_map_filter. exact Hscan.
Qed.

Lemma filter_length_le {A} (f : A -> bool) (l : list A) :
  (length (List.filter f l) <= length l)%nat.
Proof.
  induction l as [| a l IH]; cbn; [lia |]. destruct (f a); cbn; lia.
Qed.

Lemma sections_length (l : list Achievement.t) :
  (length (List.filter (in_section Legendary) l) +
   length (List.filter (in_section Pvp) l) +
   length (List.filter (in_section Story) l) +
   length (List.filter (in_section Exploration) l) <= length l)%nat.
Proof.
  unfold in_section.
  induction l as [| a l IH]; cbn [List.filter length]; [lia |].
  destruct (section_of a) as [[] |]; cbn [section_eqb length] in *; lia.
Qed.

(** X7: an entry is appended at most once to [nearly_complete] and at most
    once to the four section buckets together, so [nearly_complete] is no
    longer than the scan, the four section buckets together are no longer
    than the scan, and the scan is no longer than the catalog. *)
Theorem X7_bucket_sizes
    (w : World) (api_key : option string) (recs : Recommendations.t) (st : Z)
    (ua : list Progress.t) :
  snd (get api_key w) = inr (mkResponse (RecommendationsBody recs) st) ->
  gw2_api w api_url (auth_headers api_key) = inr ua ->
  (length (Recommendations.nearly_complete recs) <= length (potential w ua))%nat /\
  (length (Recommendations.legendary recs) + length (Recommendations.pvp recs) +
   length (Recommendations.story recs) + length (Recommendations.exploration recs)
   <= length (potential w ua))%nat /\
  (length (potential w ua) <= length (rows (objects w)))%nat.
Proof.
  intros Hget Hapi.
  destruct (served_buckets _ _ _ _ _ Hget Hapi) as (Hn & Hs & _).
  split; [| split].
  - rewrite Hn, length_map. apply filter_length_le.
  - pose proof (Hs Legendary) as HL. pose proof (Hs Pvp) as HP.
    pose proof (Hs Story) as HS. pose proof (Hs Exploration) as HE.
    cbn [bucket_of] in *. rewrite HL, HP, HS, HE, !length_map.
    apply sections_length.
  - unfold potential, select_exclude_in.
    rewrite (Permutation_length (order_by_name_perm _ _)). apply filter_length_le.
Qed.

(** X8: every projection in a bucket repeats a catalog row: its id, name,
    requirement and category are those of a row of the catalog whose id is
    not completed. *)
Theorem X8_projection_repeats_catalog_row
    (w : World) (api_key : option string) (recs : Recommendations.t) (st : Z)
    (ua : list Progress.t) (d : AchData.t) :
  snd (get api_key w) = inr (mkResponse (RecommendationsBody recs) st) ->
  gw2_api w api_url (auth_headers api_key) = inr ua ->
  In d (all_buckets recs) ->
  exists row,
    In row (rows (objects w)) /\
    ~ In (Achievement.gw2_id row) (completed_ids ua) /\
    AchData.id d = Achievement.gw2_id row /\
    AchData.name d = Achievement.name row /\
    AchData.requirement d = Achievement.requirement row /\
    AchData.category d = Achievement.category_name row.
Proof.
  intros Hget Hapi Hd.
  destruct (served_origin _ _ _ _ _ _ Hget Hapi Hd) as (ach & Hin & ->).
  apply potential_In in Hin. exists ach. repeat split; tauto.
Qed.

(** ** Empty inputs *)

Lemma spec_progress_record_nil (i : Z) : spec_progress_record [] i = None.
Proof. reflexivity. Qed.

(** X9: for a player without any progress record the handler returns,
    [nearly_complete] is empty, and each section bucket holds the whole
    catalog's entries of that section, each with [progress = 0] and
    [max = 1]. *)
Theorem X9_empty_snapshot (w : World) (api_key : option string) :
  Py.truthy_str api_key = true ->
  gw2_api w api_url (auth_headers api_key) = inr [] ->
  exists recs,
    snd (get api_key w) = inr (mkResponse (RecommendationsBody recs) 200) /\
    Recommendations.nearly_complete recs = [] /\
    (forall s, bucket_of s recs =
       List.map (ach_data None)
         (List.filter (in_section s)
            (order_by_name (name_le (objects w)) (rows (objects w))))) /\
    (forall d, In d (all_buckets recs) -> AchData.progress d = 0 /\ AchData.max d = 1).
Proof.
  intros Hk Hapi.
  destruct (get_returns api_key w [] Hk Hapi) as (recs & Hget).
  { intros ach p _ Hp. discriminate Hp. }
  assert (Hsnd : snd (get api_key w) = inr (mkResponse (RecommendationsBody recs) 200))
    by (rewrite Hget; reflexivity).
  destruct (served_buckets _ _ _ _ _ Hsnd Hapi) as (Hn & Hs & _).
  assert (Hproj : forall l, List.map (project (in_progress [])) l
                            = List.map (ach_data None) l).
  { intros l. apply map_ext. intros a. unfold project.
    rewrite in_progress_lookup. reflexivity. }
  assert (Hscan : potential w [] = order_by_name (name_le (objects w)) (rows (objects w))).
  { unfold potential, select_exclude_in. f_equal. cbn.
    induction (rows (objects w)) as [| a l IH]; cbn; [reflexivity |]. f_equal. exact IH. }
  assert (Hnil : Recommendations.nearly_complete recs = []).
  { rewrite Hn.
    assert (Hp : forall a, passes_ratio (in_progress []) a = false).
    { intros a. unfold passes_ratio. rewrite in_progress_lookup. reflexivity. }
    assert (Hf : forall l, List.filter (passes_ratio (in_progress [])) l = []).
    { induction l as [| a l IH]; cbn [List.filter]; [reflexivity |].
      rewrite Hp. exact IH. }
    rewrite Hf. reflexivity. }
  exists recs. split; [exact Hsnd |]. split; [exact Hnil |]. split.
  - intros s. rewrite Hs, Hproj, Hscan. reflexivity.
  - intros d Hd. apply all_buckets_In in Hd. destruct Hd as [Hd | (s & Hd)].
    + rewrite Hnil in Hd. destruct Hd.
    + rewrite Hs, Hproj in Hd. apply in_map_iff in Hd.
      destruct Hd as (a & <- & _). cbn. auto.
Qed.

(** X10: with an empty catalog both queries deliver nothing, so the loop
    evaluates no ratio test and builds five empty buckets whatever the
    snapshot holds, records with [max = 0] included; a response returned
    to a request with a key is the 200 response with five empty buckets. *)
Theorem X10_empty_catalog (w : World) (ua : list Progress.t) :
  rows (objects w) = [] ->
  history w ua = [] /\ potential w ua = [] /\
  (forall affinity_map,
     for_each (categorize affinity_map (in_progress ua))
       (potential w ua) Recommendations.empty = inr Recommendations.empty) /\
  (forall api_key resp,
     Py.truthy_str api_key = true ->
     snd (get api_key w) = inr resp ->
     resp = mkResponse (RecommendationsBody Recommendations.empty) 200).
Proof.
  intros Hrows.
  assert (Hh : forall ua', history w ua' = [])
    by (intros ua'; unfold history, select_filter_in; rewrite Hrows; reflexivity).
  assert (Hp : forall ua', potential w ua' = [])
    by (intros ua'; unfold potential, select_exclude_in; rewrite Hrows; reflexivity).
  split; [apply Hh |]. split; [apply Hp |]. split.
  - intros affinity_map. rewrite Hp. reflexivity.
  - intros api_key resp Hk. rewrite get_with_key by assumption.
    destruct (gw2_api w api_url (auth_headers api_key)) as [e | ua']; [discriminate |].
    cbn [snd]. rewrite Hp. cbn. congruence.
Qed.


(** ** What the response depends on *)

Lemma categorize_ext aff aff' inp inp' r a :
  inp !! Achievement.gw2_id a = inp' !! Achievement.gw2_id a ->
  categorize aff inp r a = categorize aff' inp' r a.
Proof. intros Heq. unfold categorize. rewrite Heq. reflexivity. Qed.

Lemma for_each_categorize_ext aff aff' inp inp' l : forall r,
  (forall a, In a l -> inp !! Achievement.gw2_id a = inp' !! Achievement.gw2_id a) ->
  for_each (categorize aff inp) l r = for_each (categorize aff' inp') l r.
Proof.
  induction l as [| a l IH]; intros r Hl; cbn [for_each]; [reflexivity |].
  rewrite (categorize_ext aff aff' inp inp') by (apply Hl; left; reflexivity).
  destruct (categorize aff' inp' r a); cbn; [reflexivity |].
  apply IH. intros b Hb. apply Hl. right. exact Hb.
Qed.

Lemma select_exclude_in_ext (s : Store) (ids ids' : list Z) :
  (forall a, In a (rows s) ->
     (In (Achievement.gw2_id a) ids <-> In (Achievement.gw2_id a) ids')) ->
  select_exclude_in s ids = select_exclude_in s ids'.
Proof.
  intros Hids. unfold select_exclude_in. f_equal.
  apply filter_ext_in. intros a Ha. f_equal.
  pose proof (Hids a Ha) as Hiff. rewrite <- !int_in_In in Hiff.
  destruct (Py.int_in (Achievement.gw2_id a) ids), (Py.int_in (Achievement.gw2_id a) ids');
    try reflexivity; destruct Hiff as [H1 H2].
  - discriminate (H1 eq_refl).
  - discriminate (H2 eq_refl).
Qed.

(** Two snapshots that agree, on the ids of the catalog, about which ids
    are completed and about the not-done record of each id, get the same
    answer. *)
Lemma get_snapshot_ext (w w' : World) (api_key : option string)
    (ua ua' : list Progress.t) :
  objects w' = objects w ->
  gw2_api w api_url (auth_headers api_key) = inr ua ->
  gw2_api w' api_url (auth_headers api_key) = inr ua' ->
  (forall a, In a (rows (objects w)) ->
     (In (Achievement.gw2_id a) (completed_ids ua) <->
      In (Achievement.gw2_id a) (completed_ids ua')) /\
     spec_progress_record ua (Achievement.gw2_id a) =
       spec_progress_record ua' (Achievement.gw2_id a)) ->
  snd (get api_key w) = snd (get api_key w').
Proof.
  intros Hobj Hapi Hapi' Hagree.
  destruct (Py.truthy_str api_key) eqn:Hk.
  - rewrite !get_with_key, Hapi, Hapi' by assumption. cbn [snd].
    assert (Hscan : potential w' ua' = potential w ua).
    { unfold potential. rewrite Hobj. symmetry. apply select_exclude_in_ext.
      intros a Ha. apply Hagree. exact Ha. }
    rewrite Hscan.
    rewrite (for_each_categorize_ext (affinity (history w ua))
               (affinity (history w' ua')) (in_progress ua) (in_progress ua')).
    + reflexivity.
    + intros a Ha. rewrite !in_progress_lookup. apply Hagree.
      apply potential_In in Ha. apply Ha.
  - rewrite !get_without_key by assumption. reflexivity.
Qed.

Lemma completed_ids_app (l1 l2 : list Progress.t) :
  completed_ids (l1 ++ l2) = completed_ids l1 ++ completed_ids l2.
Proof. unfold completed_ids. rewrite List.filter_app, map_app. reflexivity. Qed.

Lemma spec_progress_record_skip (l1 l2 : list Progress.t) (r : Progress.t) (i : Z) :
  Progress.id r <> i ->
  spec_progress_record (l1 ++ r :: l2) i = spec_progress_record (l1 ++ l2) i.
Proof.
  intros Hne. unfold spec_progress_record. rewrite !List.filter_app. cbn [List.filter].
  destruct (Z.eqb_spec (Progress.id r) i) as [Heq | _]; [contradiction |].
  rewrite andb_false_r. reflexivity.
Qed.

(** X11: a not-done progress record whose id matches no catalog row is
    ignored: with and without it the handler makes the same accesses and
    gives the same answer, whatever the record's [current] and [max]
    ([max = 0] included). *)
Theorem X11_unknown_record_is_ignored
    (w w' : World) (api_key : option string)
    (before after : list Progress.t) (r : Progress.t) :
  objects w' = objects w ->
  gw2_api w api_url (auth_headers api_key) = inr (before ++ after) ->
  gw2_api w' api_url (auth_headers api_key) = inr (before ++ r :: after) ->
  is_done r = false ->
  (forall a, In a (rows (objects w)) -> Achievement.gw2_id a <> Progress.id r) ->
  get api_key w' = get api_key w.
Proof.
  intros Hobj Hapi Hapi' Hnot Hunknown.
  destruct (Py.truthy_str api_key) eqn:Hk.
  - rewrite !get_with_key, Hapi, Hapi' by assumption.
    assert (Hids : completed_ids (before ++ r :: after) = completed_ids (before ++ after)).
    { rewrite !completed_ids_app. f_equal. unfold completed_ids. cbn [List.filter].
      rewrite Hnot. reflexivity. }
    unfold potential, history. rewrite Hids, Hobj.
    rewrite (for_each_categorize_ext
               (affinity (select_filter_in (objects w) (completed_ids (before ++ after))))
               (affinity (select_filter_in (objects w) (completed_ids (before ++ after))))
               (in_progress (before ++ r :: after)) (in_progress (before ++ after)));
      [reflexivity |].
    intros a Ha. rewrite !in_progress_lookup.
    apply spec_progress_record_skip.
    assert (Hrow : In a (rows (objects w))).
    { apply (potential_In w (before ++ after)) in Ha. apply Ha. }
    specialize (Hunknown a Hrow). congruence.
  - rewrite !get_without_key by assumption. reflexivity.
Qed.

Lemma completed_ids_perm (ua ua' : list Progress.t) :
  Permutation ua ua' -> Permutation (completed_ids ua) (completed_ids ua').
Proof.
  intros Hperm. unfold completed_ids. apply Permutation_map.
  induction Hperm as [| x l l' _ IH | x y l | l l' l'' _ IH1 _ IH2]; cbn.
  - constructor.
  - destruct (is_done x); [constructor |]; exact IH.
  - destruct (is_done x), (is_done y); try reflexivity. apply perm_swap.
  - etransitivity; eassumption.
Qed.

Lemma filter_id_unique (ua : list Progress.t) (f : Progress.t -> bool) (i : Z) :
  List.NoDup (List.map Progress.id ua) ->
  forall p q, In p (List.filter (fun a => f a && (Progress.id a =? i)) ua) ->
              In q (List.filter (fun a => f a && (Progress.id a =? i)) ua) -> p = q.
Proof.
  intros Hnd p q Hp Hq. apply filter_In in Hp. apply filter_In in Hq.
  destruct Hp as [Hp Hpi], Hq as [Hq Hqi].
  apply andb_true_iff in Hpi. apply andb_true_iff in Hqi.
  destruct Hpi as [_ Hpi], Hqi as [_ Hqi]. apply Z.eqb_eq in Hpi, Hqi.
  apply (NoDup_map_eq Progress.id ua p q Hnd Hp Hq). congruence.
Qed.

Lemma spec_progress_record_perm (ua ua' : list Progress.t) (i : Z) :
  Permutation ua ua' -> List.NoDup (List.map Progress.id ua) ->
  spec_progress_record ua i = spec_progress_record ua' i.
Proof.
  intros Hperm Hnd.
  assert (Hnd' : List.NoDup (List.map Progress.id ua'))
    by (eapply Permutation_NoDup; [apply Permutation_map; exact Hperm | exact Hnd]).
  destruct (spec_progress_record ua i) as [p |] eqn:Hp;
    destruct (spec_progress_record ua' i) as [p' |] eqn:Hp'; try reflexivity.
  - f_equal.
    apply spec_progress_record_Some in Hp. apply spec_progress_record_Some in Hp'.
    destruct Hp as (Hin & _ & Hid), Hp' as (Hin' & _ & Hid').
    apply (NoDup_map_eq Progress.id ua' p p' Hnd'); try assumption; try congruence.
    eapply Permutation_in; eassumption.
  - exfalso. apply spec_progress_record_Some in Hp. destruct Hp as (Hin & Hdone & Hid).
    rewrite spec_progress_record_None in Hp'.
    rewrite (Hp' p) in Hdone; [discriminate | | assumption].
    eapply Permutation_in; eassumption.
  - exfalso. apply spec_progress_record_Some in Hp'. destruct Hp' as (Hin & Hdone & Hid).
    rewrite spec_progress_record_None in Hp.
    rewrite (Hp p') in Hdone; [discriminate | | assumption].
    eapply Permutation_in; [symmetry |]; eassumption.
Qed.

(** X12: when the snapshot has one record per id, the order of its records
    does not matter: any rearrangement gets the same answer. *)
Theorem X12_snapshot_order_is_irrelevant
    (w w' : World) (api_key : option string) (ua ua' : list Progress.t) :
  objects w' = objects w ->
  gw2_api w api_url (auth_headers api_key) = inr ua ->
  gw2_api w' api_url (auth_headers api_key) = inr ua' ->
  Permutation ua ua' ->
  List.NoDup (List.map Progress.id ua) ->
  snd (get api_key w') = snd (get api_key w).
Proof.
  intros Hobj Hapi Hapi' Hperm Hnd. symmetry.
  apply (get_snapshot_ext w w' api_key _ _ Hobj Hapi Hapi').
  intros a Ha. split.
  - pose proof (completed_ids_perm ua ua' Hperm) as Hc.
    split; apply Permutation_in; [| symmetry]; exact Hc.
  - apply spec_progress_record_perm; assumption.
Qed.


Lemma insert_by_name_map le (f : Achievement.t -> Achievement.t) a l :
  (forall x, Achievement.name (f x) = Achievement.name x) ->
  insert_by_name le (f a) (List.map f l) = List.map f (insert_by_name le a l).
Proof.
  intros Hname. induction l as [| b l IH]; cbn [insert_by_name List.map]; [reflexivity |].
  rewrite !Hname. destruct (le _ _); cbn [List.map]; [reflexivity |].
  rewrite IH. reflexivity.
Qed.

Lemma order_by_name_map le (f : Achievement.t -> Achievement.t) l :
  (forall x, Achievement.name (f x) = Achievement.name x) ->
  order_by_name le (List.map f l) = List.map f (order_by_name le l).
Proof.
  intros Hname. induction l as [| a l IH]; [reflexivity |].
  cbn [List.map order_by_name fold_right].
  fold (order_by_name le (List.map f l)). fold (order_by_name le l).
  rewrite IH. apply insert_by_name_map. exact Hname.
Qed.

Lemma filter_map_comm {A} (f : A -> A) (p : A -> bool) (l : list A) :
  (forall x, p (f x) = p x) ->
  List.filter p (List.map f l) = List.map f (List.filter p l).
Proof.
  intros Hp. induction l as [| a l IH]; cbn; [reflexivity |].
  rewrite Hp. destruct (p a); cbn; rewrite IH; reflexivity.
Qed.

Lemma for_each_map {S A} (body : S -> A -> Py.result S) (f : A -> A) (l : list A) :
  forall s, for_each body (List.map f l) s = for_each (fun s a => body s (f a)) l s.
Proof.
  induction l as [| a l IH]; intros s; cbn [for_each List.map]; [reflexivity |].
  destruct (body s (f a)); cbn; auto.
Qed.

Lemma for_each_ext {S A} (body body' : S -> A -> Py.result S) (l : list A) :
  (forall s a, body s a = body' s a) ->
  forall s, for_each body l s = for_each body' l s.
Proof.
  intros Hb. induction l as [| a l IH]; intros s; cbn [for_each]; [reflexivity |].
  rewrite Hb. destruct (body' s a); cbn; auto.
Qed.

Lemma categorize_same_listing aff aff' inp r a b :
  same_listing a b -> categorize aff inp r a = categorize aff' inp r b.
Proof.
  intros (Hid & Hname & Hreq & Hcat & Hgrp & Hflags & Hleg).
  unfold categorize, section_of, ach_data.
  rewrite Hid, Hname, Hreq, Hcat, Hgrp, Hflags, Hleg. reflexivity.
Qed.

(** X13: the answer depends on a catalog row only through its id, name,
    requirement, category, group, flags and legendary mark: rewriting the
    other fields of the rows (description, tiers, rewards and the community
    priority that feeds the score) leaves the answer unchanged. *)
Theorem X13_unread_fields_do_not_matter
    (w w' : World) (api_key : option string) (f : Achievement.t -> Achievement.t) :
  gw2_api w' = gw2_api w ->
  name_le (objects w') = name_le (objects w) ->
  rows (objects w') = List.map f (rows (objects w)) ->
  (forall a, same_listing (f a) a) ->
  snd (get api_key w') = snd (get api_key w).
Proof.
  intros Hapi Hle Hrows Hsame.
  destruct (Py.truthy_str api_key) eqn:Hk.
  - rewrite !get_with_key, Hapi by assumption.
    destruct (gw2_api w api_url (auth_headers api_key)) as [e | ua]; [reflexivity |].
    cbn [snd].
    assert (Hscan : potential w' ua = List.map f (potential w ua)).
    { unfold potential, select_exclude_in. rewrite Hle, Hrows.
      rewrite filter_map_comm by (intros x; rewrite (proj1 (Hsame x)); reflexivity).
      apply order_by_name_map. intros x. apply (Hsame x). }
    rewrite Hscan, for_each_map.
    rewrite (for_each_ext _ (categorize (affinity (history w ua)) (in_progress ua))).
    + reflexivity.
    + intros s a. apply categorize_same_listing. apply Hsame.
  - rewrite !get_without_key by assumption. reflexivity.
Qed.

(** ** The dictionary of records in progress *)

Lemma in_progress_app_not_done (ua : list Progress.t) (r : Progress.t) :
  is_done r = false -> in_progress (ua ++ [r]) = <[Progress.id r := r]> (in_progress ua).
Proof.
  intros Hr. unfold in_progress. rewrite List.filter_app. cbn [List.filter].
  rewrite Hr. cbn [negb]. rewrite fold_left_app. reflexivity.
Qed.

Lemma in_progress_app_done (ua : list Progress.t) (r : Progress.t) :
  is_done r = true -> in_progress (ua ++ [r]) = in_progress ua.
Proof.
  intros Hr. unfold in_progress. rewrite List.filter_app. cbn [List.filter].
  rewrite Hr. cbn [negb]. rewrite app_nil_r. reflexivity.
Qed.

(** X14: [in_progress] maps an id to a record of the snapshot with that id
    that is not done, and has no entry for an id exactly when every record
    with that id is done; a not-done record added at the end of the
    snapshot replaces the entry of its id and leaves the others, and a done
    record changes nothing. *)
Theorem X14_in_progress_dictionary (ua : list Progress.t) (i : Z) :
  (forall p, in_progress ua !! i = Some p ->
     In p ua /\ Progress.id p = i /\ is_done p = false) /\
  (in_progress ua !! i = None <->
     forall p, In p ua -> Progress.id p = i -> is_done p = true) /\
  (forall r, is_done r = false ->
     in_progress (ua ++ [r]) !! Progress.id r = Some r /\
     (Progress.id r <> i -> in_progress (ua ++ [r]) !! i = in_progress ua !! i)) /\
  (forall r, is_done r = true -> in_progress (ua ++ [r]) = in_progress ua).
Proof.
  split; [| split; [| split]].
  - intros p Hp. rewrite in_progress_lookup in Hp.
    apply spec_progress_record_Some in Hp. tauto.
  - rewrite in_progress_lookup. apply spec_progress_record_None.
  - intros r Hr. rewrite in_progress_app_not_done by assumption. split.
    + apply lookup_insert_eq.
    + intros Hne. apply lookup_insert_ne. exact Hne.
  - intros r Hr. apply in_progress_app_done. exact Hr.
Qed.

(** ** The section tests *)

Lemma prefix_spec (s1 s2 : string) :
  String.prefix s1 s2 = true <-> exists post, s2 = String.append s1 post.
Proof.
  revert s2. induction s1 as [| c s1 IH]; intros [| c2 s2]; cbn.
  - split; [intros _; exists EmptyString; reflexivity | reflexivity].
  - split; [intros _; exists (String c2 s2); reflexivity | reflexivity].
  - split; [discriminate | intros (post & Hpost); discriminate].
  - destruct (Ascii.ascii_dec c c2) as [-> | Hne].
    + rewrite IH. split; intros (post & Hpost); exists post.
      * rewrite Hpost. reflexivity.
      * injection Hpost as Hpost. exact Hpost.
    + split; [discriminate |]. intros (post & Hpost).
      injection Hpost as Hc _. exfalso. apply Hne. symmetry. exact Hc.
Qed.

Lemma str_contains_spec (needle hay : string) :
  Py.str_contains needle hay = true <->
  exists pre post, hay = String.append pre (String.append needle post).
Proof.
  induction hay as [| c hay IH]; cbn [Py.str_contains].
  - rewrite prefix_spec. split.
    + intros (post & Hpost). exists EmptyString, post. exact Hpost.
    + intros (pre & post & Hhay). destruct pre as [| c pre]; [| discriminate].
      exists post. exact Hhay.
  - rewrite orb_true_iff, prefix_spec, IH. split.
    + intros [(post & Hpost) | (pre & post & Hhay)].
      * exists EmptyString, post. exact Hpost.
      * exists (String c pre), post. cbn. rewrite Hhay. reflexivity.
    + intros (pre & post & Hhay). destruct pre as [| c' pre].
      * left. exists post. exact Hhay.
      * right. cbn in Hhay. injection Hhay as _ Hhay. exists pre, post. exact Hhay.
Qed.

Lemma list_contains_spec (x : string) (xs : list string) :
  Py.list_contains x xs = true <-> In x xs.
Proof.
  unfold Py.list_contains. rewrite existsb_exists. split.
  - intros (y & Hin & Heq). apply String.eqb_eq in Heq. subst. exact Hin.
  - intros Hin. exists x. split; [exact Hin | apply String.eqb_refl].
Qed.

(** X15: the section of an entry, by what the tests mean: the flag test is
    membership of the exact string "Pvp" in the list of flags, and the
    story and exploration tests are substring tests (case-sensitive) on the
    group and the category; an entry that passes none is in no section
    bucket. *)
Theorem X15_section_tests (ach : Achievement.t) :
  let legendary := Achievement.is_legendary ach = true in
  let pvp := In "Pvp"%string (Achievement.flags ach) in
  let story := exists pre post,
    Achievement.group_name ach = String.append pre (String.append "Story" post) in
  let explorer := exists pre post,
    Achievement.category_name ach = String.append pre (String.append "Explorer" post) in
  (section_of ach = Some Legendary <-> legendary) /\
  (section_of ach = Some Pvp <-> ~ legendary /\ pvp) /\
  (section_of ach = Some Story <-> ~ legendary /\ ~ pvp /\ story) /\
  (section_of ach = Some Exploration <->
     ~ legendary /\ ~ pvp /\ ~ story /\ explorer) /\
  (section_of ach = None <-> ~ legendary /\ ~ pvp /\ ~ story /\ ~ explorer).
Proof.
  intros legendary pvp story explorer. unfold legendary, pvp, story, explorer.
  rewrite <- list_contains_spec, <- !str_contains_spec. unfold section_of.
  destruct (Achievement.is_legendary ach);
    destruct (Py.list_contains "Pvp" (Achievement.flags ach));
    destruct (Py.str_contains "Story" (Achievement.group_name ach));
    destruct (Py.str_contains "Explorer" (Achievement.category_name ach));
    intuition congruence.
Qed.


(** ** The ratio test *)

Lemma truediv_zero_numerator (b : Z) :
  b <> 0 -> exists q, Py.truediv 0 b = inr q /\ Py.float_gt q Py.lit_0_7 = false.
Proof.
  intros Hb. unfold Py.truediv.
  destruct (Z.eqb_spec b 0) as [-> | _]; [contradiction |].
  destruct b as [| pb | pb]; [contradiction | |]; cbn; eauto.
Qed.

Lemma nearly_complete_test_no_progress (p : Progress.t) :
  default 0 (Progress.current p) = 0 ->
  default 1 (Progress.max p) <> 0 ->
  nearly_complete_test (Some p) = inr false.
Proof.
  intros Hc Hm. cbn [nearly_complete_test].
  unfold ratio_numerator, ratio_denominator. rewrite Hc.
  destruct (truediv_zero_numerator _ Hm) as (q & Hq & Hgt).
  rewrite Hq. cbn. rewrite Hgt. reflexivity.
Qed.

(** X16: a record without progress ([current] 0 or missing) is never
    nearly complete, and its test does not raise unless its [max] is 0. *)
Theorem X16_no_progress_is_not_nearly_complete (p : Progress.t) :
  default 0 (Progress.current p) = 0 ->
  default 1 (Progress.max p) <> 0 ->
  nearly_complete_test (Some p) = inr false.
Proof. apply nearly_complete_test_no_progress. Qed.

(** X17: a not-done record that has reached its target ([current >= max],
    [max] positive) passes the test, as long as the quotient fits a float. *)
Theorem X17_reached_target_is_nearly_complete (p : Progress.t) (c m : Z) :
  c = default 0 (Progress.current p) -> m = default 1 (Progress.max p) ->
  0 < m -> m <= c -> c < 2 ^ 1023 * m ->
  nearly_complete_test (Some p) = inr true.
Proof.
  intros Hc Hm Hm0 Hcm Hfit. apply nearly_complete_test_Some.
  unfold ratio_numerator, ratio_denominator. rewrite <- Hc, <- Hm.
  destruct (truediv_returns c m ltac:(lia) Hm0 Hfit) as (q & Hq).
  exists q. split; [exact Hq |].
  rewrite (truediv_gt_0_7 c m q Hm0 Hq). symmetry. apply Z.ltb_lt. lia.
Qed.

(** X18: the test is monotone: when a record passes, so does any record
    with at least as much [current] and a positive [max] no larger,
    provided its own division does not raise. *)
Theorem X18_ratio_test_is_monotone (p p' : Progress.t) (t' : bool) :
  0 < default 1 (Progress.max p') ->
  default 1 (Progress.max p') <= default 1 (Progress.max p) ->
  default 0 (Progress.current p) <= default 0 (Progress.current p') ->
  nearly_complete_test (Some p) = inr true ->
  nearly_complete_test (Some p') = inr t' ->
  t' = true.
Proof.
  intros Hm' Hmm Hcc Ht Ht'.
  apply nearly_complete_test_Some in Ht. destruct Ht as (q & Hq & Hgt).
  apply nearly_complete_test_Some in Ht'. destruct Ht' as (q' & Hq' & ->).
  unfold ratio_numerator, ratio_denominator in *.
  revert Hm' Hmm Hcc Hq Hq'.
  generalize (default 0 (Progress.current p)) (default 1 (Progress.max p))
    (default 0 (Progress.current p')) (default 1 (Progress.max p')).
  intros c m c' m' Hm' Hmm Hcc Hq Hq'.
  assert (Hm : 0 < m) by lia.
  rewrite (truediv_gt_0_7 c m q Hm Hq) in Hgt.
  rewrite (truediv_gt_0_7 c' m' q' Hm' Hq').
  symmetry in Hgt. apply Z.ltb_lt in Hgt. apply Z.ltb_lt.
  assert (0 <= 12610078956637389 * (m - m')) by lia.
  assert (0 < c) by lia.
  lia.
Qed.

(** The quotient of two positive ints overflows from 2^1024 on. *)
Lemma SFdiv_overflow (a b : positive) :
  2 ^ 1024 * Zpos b <= Zpos a ->
  SFdiv 53 1024 (S754_finite false a 0) (S754_finite false b 0) = S754_infinity false.
Proof.
  intros Hab. unfold SFdiv. rewrite SFdiv_core_binary_spec. cbn [xorb].
  destruct (digits2_pos_pow a) as (P1 & HP1 & Ha & HP1e).
  destruct (digits2_pos_pow b) as (P2 & HP2 & Hb & HP2e).
  set (d1 := Zpos (digits2_pos a)) in *. set (d2 := Zpos (digits2_pos b)) in *.
  assert (Hd1 : 0 < d1) by (unfold d1; lia). assert (Hd2 : 0 < d2) by (unfold d2; lia).
  assert (Hp1024 : 0 < 2 ^ 1024) by (apply Z.pow_pos_nonneg; lia).
  assert (Hdd : 1024 <= d1 - d2).
  { destruct (Z_le_gt_dec 1024 (d1 - d2)) as [Hle | Hgt]; [exact Hle | exfalso].
    assert (Hpow : 2 ^ (d1 - 1 + 1) <= 2 ^ (1024 + (d2 - 1)))
      by (apply Z.pow_le_mono_r; lia).
    rewrite !Z.pow_add_r, Z.pow_1_r in Hpow by lia.
    assert (2 ^ 1024 * P2 <= 2 ^ 1024 * Zpos b) by (apply Z.mul_le_mono_nonneg_l; lia).
    subst P1 P2. lia. }
  set (E := Z.min (Z.max (d1 - d2 - 53) (-1074)) 0).
  assert (HE : E = 0) by (unfold E; lia).
  set (A := Zpos a * 2 ^ (- E)).
  assert (HA : A = Zpos a) by (unfold A; rewrite HE; cbn; lia).
  assert (Hq1024 : 2 ^ 1024 <= A / Zpos b).
  { apply Z.div_le_lower_bound; [lia |]. rewrite HA. lia. }
  assert (Hq : 0 <= A / Zpos b) by lia.
  set (q := A / Zpos b) in *.
  destruct (binary_round_aux_spec q E (new_location (Zpos b) (A mod Zpos b)) Hq ltac:(lia))
    as (mrs & Hbra & Hm & _). rewrite Hbra. clear Hbra.
  pose proof (Zdigits2_bounds q ltac:(lia)) as [Hlo Hhi].
  assert (HD : 1025 <= Zdigits2 q).
  { destruct (Z_le_gt_dec 1025 (Zdigits2 q)) as [Hle | Hgt]; [exact Hle | exfalso].
    assert (2 ^ Zdigits2 q <= 2 ^ 1024)
      by (apply Z.pow_le_mono_r; lia).
    lia. }
  set (e' := Z.max E (Zdigits2 q + E - 53)) in *.
  assert (He' : e' = Zdigits2 q - 53) by (unfold e'; lia).
  assert (Hr : 0 < shr_m mrs).
  { rewrite Hm. apply Z.div_str_pos. split; [apply Z.pow_pos_nonneg; lia |].
    assert (2 ^ (e' - E) <= 2 ^ (Zdigits2 q - 1)) by (apply Z.pow_le_mono_r; lia).
    lia. }
  pose proof (round_nearest_even_range (shr_m mrs) (loc_of_shr_record mrs)) as Hrne.
  unfold rounded_float.
  repeat match goal with
    | |- context [Z.eqb ?x ?y] => destruct (Z.eqb_spec x y)
    | |- context [Z.leb ?x ?y] => destruct (Z.leb_spec x y)
    end; try reflexivity; lia.
Qed.

(** X19: a record whose [current] is at least 2^1024 times its positive
    [max] makes the test raise [OverflowError]. *)
Theorem X19_huge_ratio_overflows (p : Progress.t) (c m : Z) :
  c = default 0 (Progress.current p) -> m = default 1 (Progress.max p) ->
  0 < m -> 2 ^ 1024 * m <= c ->
  nearly_complete_test (Some p) = inl Py.OverflowError.
Proof.
  intros Hc Hm Hm0 Hbig. cbn [nearly_complete_test].
  unfold ratio_numerator, ratio_denominator. rewrite <- Hc, <- Hm.
  unfold Py.truediv. destruct (Z.eqb_spec m 0) as [-> | _]; [lia |].
  destruct m as [| pm | pm]; try lia.
  assert (Hp : 0 < 2 ^ 1024) by (apply Z.pow_pos_nonneg; lia).
  destruct c as [| pc | pc]; try lia.
  cbn [Py.float_of_int].
  change (SFdiv Py.prec Py.emax) with (SFdiv 53 1024).
  rewrite (SFdiv_overflow pc pm Hbig). reflexivity.
Qed.

(** ** The affinity map as a whole *)

Lemma affinity_total_count (m : gmap string Z) (a : Achievement.t) :
  affinity_total (count_category m a) = affinity_total m + 1.
Proof.
  unfold count_category, affinity_total.
  set (k := Achievement.category_name a).
  destruct (m !! k) as [v |] eqn:Hk; cbn [default].
  - rewrite <- insert_delete_eq.
    rewrite map_fold_insert_L;
      [| intros; lia | apply lookup_delete_eq].
    rewrite (map_fold_delete_L _ _ k v m); [| intros; lia | exact Hk].
    unfold id. generalize (map_fold (fun (_ : string) (count acc : Z) => count + acc) 0
                             (delete k m)). intros t. lia.
  - rewrite map_fold_insert_L; [| intros; lia | exact Hk].
    generalize (map_fold (fun (_ : string) (count acc : Z) => count + acc) 0 m).
    intros t. lia.
Qed.

Lemma affinity_total_fold (l : list Achievement.t) : forall m : gmap string Z,
  affinity_total (fold_left count_category l m) = affinity_total m + Z.of_nat (length l).
Proof.
  induction l as [| a l IH]; intros m; cbn [fold_left length].
  - lia.
  - rewrite IH, affinity_total_count. lia.
Qed.

(** X20: completions accumulate without a cap: the counts of the affinity
    map add up to the number of completed catalog rows, every count in the
    map is at least 1, and the categories of the map are those of the
    completed rows. *)
Theorem X20_affinity_adds_up (w : World) (ua : list Progress.t) :
  affinity_total (affinity (history w ua)) = Z.of_nat (length (history w ua)) /\
  (forall category n, affinity (history w ua) !! category = Some n -> 1 <= n) /\
  (forall category, is_Some (affinity (history w ua) !! category) <->
     exists a, In a (history w ua) /\ Achievement.category_name a = category).
Proof.
  split; [| split].
  - unfold affinity. rewrite affinity_total_fold. reflexivity.
  - intros category n. rewrite affinity_lookup. cbv zeta.
    set (c := Z.of_nat (length (List.filter _ (history w ua)))).
    assert (Hc : 0 <= c) by (unfold c; lia). clearbody c.
    destruct (Z.eqb_spec c 0) as [_ | Hne]; [discriminate |].
    intros [= <-]. lia.
  - intros category. rewrite affinity_lookup. cbv zeta.
    set (l := List.filter _ (history w ua)). split.
    + intros Hsome. destruct l as [| a l'] eqn:Hl; [destruct Hsome; discriminate |].
      assert (Ha : In a l) by (rewrite Hl; left; reflexivity).
      apply filter_In in Ha. destruct Ha as [Ha Hcat].
      apply String.eqb_eq in Hcat. eauto.
    + intros (a & Ha & Hcat).
      assert (Hin : In a l).
      { apply filter_In. split; [exact Ha | apply String.eqb_eq; exact Hcat]. }
      destruct l as [| b l']; [destruct Hin |].
      cbn [length]. destruct (Z.eqb_spec (Z.of_nat (S (length l'))) 0); [lia | eauto].
Qed.

(** X21: the estimator and the scoring compose: the score of an entry is
    the number of completed catalog rows of its category, plus 10 for a
    community priority; it is never negative. *)
Theorem X21_score_counts_completions
    (w : World) (ua : list Progress.t) (ach : Achievement.t) :
  score (affinity (history w ua)) ach =
    spec_completions (objects w) (completed_ids ua) (Achievement.category_name ach) +
    (if Achievement.community_priority ach then 10 else 0) /\
  0 <= score (affinity (history w ua)) ach.
Proof.
  assert (Hlook : default 0 (affinity (history w ua) !! Achievement.category_name ach) =
                  spec_completions (objects w) (completed_ids ua)
                    (Achievement.category_name ach)).
  { rewrite affinity_lookup. cbv zeta. rewrite history_count.
    destruct (Z.eqb_spec (spec_completions (objects w) (completed_ids ua)
                            (Achievement.category_name ach)) 0) as [-> | _]; reflexivity. }
  assert (Hpos : 0 <= spec_completions (objects w) (completed_ids ua)
                        (Achievement.category_name ach))
    by (unfold spec_completions; lia).
  unfold score. rewrite Hlook.
  destruct (Achievement.community_priority ach); split; lia.
Qed.

(** ** What the nearly complete bucket shows *)

(** X22: every projection listed in [nearly_complete] comes with a
    not-done record of its id, shows a non-zero [progress], and, when it
    shows a positive [max], shows more than seven tenths of it:
    10 * progress > 7 * max. *)
Theorem X22_nearly_complete_shows_progress
    (w : World) (api_key : option string) (recs : Recommendations.t) (st : Z)
    (ua : list Progress.t) (d : AchData.t) :
  snd (get api_key w) = inr (mkResponse (RecommendationsBody recs) st) ->
  gw2_api w api_url (auth_headers api_key) = inr ua ->
  In d (Recommendations.nearly_complete recs) ->
  (exists p, spec_progress_record ua (AchData.id d) = Some p /\
     AchData.progress d = default 0 (Progress.current p) /\
     AchData.max d = default 0 (Progress.max p)) /\
  AchData.progress d <> 0 /\
  (0 < AchData.max d -> 7 * AchData.max d < 10 * AchData.progress d).
Proof.
  intros Hget Hapi Hd.
  destruct (served_buckets _ _ _ _ _ Hget Hapi) as (Hn & _ & _).
  rewrite Hn in Hd. apply in_map_iff in Hd. destruct Hd as (a & <- & Ha).
  apply filter_In in Ha. destruct Ha as [_ Hpass].
  apply passes_ratio_iff in Hpass. unfold project.
  rewrite in_progress_lookup in *. cbn [ach_data AchData.id].
  destruct (spec_progress_record ua (Achievement.gw2_id a)) as [p |]; [| discriminate].
  cbn [AchData.progress AchData.max].
  split; [exists p; auto |].
  assert (Hden : default 1 (Progress.max p) <> 0).
  { intros Hz. cbn [nearly_complete_test] in Hpass.
    unfold ratio_denominator in Hpass. rewrite Hz in Hpass. discriminate. }
  split.
  - intros Hzero. rewrite (nearly_complete_test_no_progress p Hzero Hden) in Hpass.
    discriminate.
  - intros Hmax. apply nearly_complete_test_Some in Hpass.
    destruct Hpass as (q & Hq & Hgt). unfold ratio_numerator, ratio_denominator in Hq.
    destruct p as [pid pcurrent [m |] pdone pbits]; simpl in Hmax, Hq |- *; [| lia].
    unfold id in *.
    rewrite (truediv_gt_0_7 _ m q Hmax Hq) in Hgt. symmetry in Hgt.
    apply Z.ltb_lt in Hgt. revert Hgt.
    generalize (default 0 pcurrent). intros c Hgt. lia.
Qed.


(** ** The further properties on the sample players *)

Lemma X1_witness :
  (Py.truthy_str sample_key = true /\
   gw2_api offline_world api_url (auth_headers sample_key) = inl Py.RequestError) /\
  get sample_key offline_world =
    ([HttpGet api_url (auth_headers sample_key)], inl Py.RequestError).
Proof.
  split; [split; reflexivity |].
  apply (X1_fetch_failure_propagates offline_world sample_key Py.RequestError);
    reflexivity.
Defined.

Lemma X2_witness :
  snd (get sample_key sample_world) =
    inr (mkResponse (RecommendationsBody sample_recommendations) 200) /\
  ((Py.truthy_str sample_key = false /\
    mkResponse (RecommendationsBody sample_recommendations) 200 =
      mkResponse (ErrorBody "API Key required") 400) \/
   (Py.truthy_str sample_key = true /\
    status (mkResponse (RecommendationsBody sample_recommendations) 200) = 200 /\
    exists ua recs,
      gw2_api sample_world api_url (auth_headers sample_key) = inr ua /\
      data (mkResponse (RecommendationsBody sample_recommendations) 200) =
        RecommendationsBody recs /\
      for_each (categorize (affinity (history sample_world ua)) (in_progress ua))
        (potential sample_world ua) Recommendations.empty = inr recs)).
Proof.
  assert (H1 : snd (get sample_key sample_world) =
            inr (mkResponse (RecommendationsBody sample_recommendations) 200))
    by (vm_compute; reflexivity).
  split; [exact H1 |].
  exact (X2_status_codes sample_world sample_key _ H1).
Defined.

Lemma X3_witness :
  (Py.truthy_str sample_key = true /\
   gw2_api sample_world api_url (auth_headers sample_key) = inr sample_progress) /\
  fst (get sample_key sample_world) =
    [HttpGet api_url (auth_headers sample_key);
     QueryFilterIn (completed_ids sample_progress);
     QueryExcludeIn (completed_ids sample_progress)] /\
  exists recs,
    for_each (categorize (affinity (history sample_world sample_progress))
                (in_progress sample_progress))
      (potential sample_world sample_progress) Recommendations.empty = inr recs.
Proof.
  assert (H1 : snd (get sample_key sample_world) =
            inr (mkResponse (RecommendationsBody sample_recommendations) 200))
    by (vm_compute; reflexivity).
  split; [split; reflexivity |].
  destruct (X3_scan_completes_iff_no_test_raises sample_world sample_key sample_progress
              eq_refl eq_refl) as (_ & Hresp).
  destruct (Hresp _ H1) as (Hlog & recs & Hfor & _).
  split; [exact Hlog | exists recs; exact Hfor].
Defined.

Lemma X4_witness :
  for_each (categorize ∅ (in_progress [zero_max_record]))
    (potential zero_max_world [zero_max_record]) Recommendations.empty
    = inl Py.ZeroDivisionError /\
  (exists ach p,
     In ach (potential zero_max_world [zero_max_record]) /\
     spec_progress_record [zero_max_record] (Achievement.gw2_id ach) = Some p /\
     ((Py.ZeroDivisionError = Py.ZeroDivisionError /\ Progress.max p = Some 0) \/
      (Py.ZeroDivisionError = Py.OverflowError /\ default 1 (Progress.max p) <> 0))).
Proof.
  assert (H1 : for_each (categorize ∅ (in_progress [zero_max_record]))
                 (potential zero_max_world [zero_max_record]) Recommendations.empty
               = inl Py.ZeroDivisionError) by (vm_compute; reflexivity).
  split; [exact H1 |].
  exact (X4_scan_exceptions zero_max_world [zero_max_record] ∅ Py.ZeroDivisionError H1).
Defined.

Lemma X6_witness :
  (snd (get sample_key sample_world) =
     inr (mkResponse (RecommendationsBody sample_recommendations) 200) /\
   List.NoDup (List.map Achievement.gw2_id (rows (objects sample_world)))) /\
  List.NoDup (List.map AchData.id (Recommendations.nearly_complete sample_recommendations)).
Proof.
  assert (H1 : snd (get sample_key sample_world) =
            inr (mkResponse (RecommendationsBody sample_recommendations) 200))
    by (vm_compute; reflexivity).
  assert (H2 : List.NoDup (List.map Achievement.gw2_id (rows (objects sample_world))))
    by (cbn; repeat (constructor; [cbn; intuition discriminate |]); constructor).
  split; [auto |].
  exact (proj1 (X6_no_duplicates_in_a_bucket sample_world sample_key
                  sample_recommendations 200 H1 H2)).
Defined.

Lemma X7_witness :
  (snd (get sample_key sample_world) =
     inr (mkResponse (RecommendationsBody sample_recommendations) 200) /\
   gw2_api sample_world api_url (auth_headers sample_key) = inr sample_progress) /\
  ((length (Recommendations.nearly_complete sample_recommendations)
    <= length (potential sample_world sample_progress))%nat /\
   (length (Recommendations.legendary sample_recommendations) +
    length (Recommendations.pvp sample_recommendations) +
    length (Recommendations.story sample_recommendations) +
    length (Recommendations.exploration sample_recommendations)
    <= length (potential sample_world sample_progress))%nat /\
   (length (potential sample_world sample_progress)
    <= length (rows (objects sample_world)))%nat).
Proof.
  assert (H1 : snd (get sample_key sample_world) =
            inr (mkResponse (RecommendationsBody sample_recommendations) 200))
    by (vm_compute; reflexivity).
  assert (H2 : gw2_api sample_world api_url (auth_headers sample_key) = inr sample_progress)
    by reflexivity.
  split; [auto |].
  exact (X7_bucket_sizes sample_world sample_key sample_recommendations 200
           sample_progress H1 H2).
Defined.

Lemma X8_witness :
  (snd (get sample_key sample_world) =
     inr (mkResponse (RecommendationsBody sample_recommendations) 200) /\
   gw2_api sample_world api_url (auth_headers sample_key) = inr sample_progress /\
   In (project (in_progress sample_progress) story_hero)
      (all_buckets sample_recommendations)) /\
  (exists row,
     In row (rows (objects sample_world)) /\
     ~ In (Achievement.gw2_id row) (completed_ids sample_progress) /\
     AchData.id (project (in_progress sample_progress) story_hero) =
       Achievement.gw2_id row /\
     AchData.name (project (in_progress sample_progress) story_hero) =
       Achievement.name row /\
     AchData.requirement (project (in_progress sample_progress) story_hero) =
       Achievement.requirement row /\
     AchData.category (project (in_progress sample_progress) story_hero) =
       Achievement.category_name row).
Proof.
  assert (H1 : snd (get sample_key sample_world) =
            inr (mkResponse (RecommendationsBody sample_recommendations) 200))
    by (vm_compute; reflexivity).
  assert (H2 : gw2_api sample_world api_url (auth_headers sample_key) = inr sample_progress)
    by reflexivity.
  assert (H3 : In (project (in_progress sample_progress) story_hero)
                 (all_buckets sample_recommendations))
    by (vm_compute; auto 10).
  split; [auto |].
  exact (X8_projection_repeats_catalog_row sample_world sample_key
           sample_recommendations 200 sample_progress _ H1 H2 H3).
Defined.

Lemma X9_witness :
  (Py.truthy_str sample_key = true /\
   gw2_api fresh_world api_url (auth_headers sample_key) = inr []) /\
  (exists recs,
     snd (get sample_key fresh_world) = inr (mkResponse (RecommendationsBody recs) 200) /\
     Recommendations.nearly_complete recs = [] /\
     (forall s, bucket_of s recs =
        List.map (ach_data None)
          (List.filter (in_section s)
             (order_by_name (name_le (objects fresh_world)) (rows (objects fresh_world))))) /\
     (forall d, In d (all_buckets recs) -> AchData.progress d = 0 /\ AchData.max d = 1)).
Proof.
  split; [split; reflexivity |].
  apply (X9_empty_snapshot fresh_world sample_key); reflexivity.
Defined.

Lemma X10_witness :
  rows (objects empty_catalog_world) = [] /\
  for_each (categorize ∅ (in_progress [zero_max_record]))
    (potential empty_catalog_world [zero_max_record]) Recommendations.empty
    = inr Recommendations.empty.
Proof.
  split; [reflexivity |].
  destruct (X10_empty_catalog empty_catalog_world [zero_max_record] eq_refl)
    as (_ & _ & Hscan & _).
  exact (Hscan ∅).
Defined.

Lemma X11_witness :
  (objects unknown_record_world = objects sample_world /\
   gw2_api sample_world api_url (auth_headers sample_key) =
     inr ([completed_record] ++ [arena_record; story_record]) /\
   gw2_api unknown_record_world api_url (auth_headers sample_key) =
     inr ([completed_record] ++ unknown_record :: [arena_record; story_record]) /\
   is_done unknown_record = false /\
   (forall a, In a (rows (objects sample_world)) ->
      Achievement.gw2_id a <> Progress.id unknown_record)) /\
  get sample_key unknown_record_world = get sample_key sample_world.
Proof.
  assert (H4 : forall a, In a (rows (objects sample_world)) ->
                 Achievement.gw2_id a <> Progress.id unknown_record).
  { cbn. intros a Ha. intuition (subst; discriminate). }
  split; [repeat split; try reflexivity; exact H4 |].
  apply (X11_unknown_record_is_ignored sample_world unknown_record_world sample_key
           [completed_record] [arena_record; story_record] unknown_record);
    try reflexivity; try exact H4.
Defined.

Lemma X12_witness :
  (objects reversed_world = objects sample_world /\
   gw2_api sample_world api_url (auth_headers sample_key) = inr sample_progress /\
   gw2_api reversed_world api_url (auth_headers sample_key) = inr (rev sample_progress) /\
   Permutation sample_progress (rev sample_progress) /\
   List.NoDup (List.map Progress.id sample_progress)) /\
  snd (get sample_key reversed_world) = snd (get sample_key sample_world).
Proof.
  assert (H4 : Permutation sample_progress (rev sample_progress))
    by apply Permutation_rev.
  assert (H5 : List.NoDup (List.map Progress.id sample_progress))
    by (cbn; repeat (constructor; [cbn; intuition discriminate |]); constructor).
  split; [repeat split; try reflexivity; assumption |].
  apply (X12_snapshot_order_is_irrelevant sample_world reversed_world sample_key
           sample_progress (rev sample_progress)); try reflexivity; assumption.
Defined.

Lemma X13_witness :
  (gw2_api priority_world = gw2_api sample_world /\
   name_le (objects priority_world) = name_le (objects sample_world) /\
   rows (objects priority_world) =
     List.map (Achievement.with_community_priority true) (rows (objects sample_world)) /\
   (forall a, same_listing (Achievement.with_community_priority true a) a)) /\
  snd (get sample_key priority_world) = snd (get sample_key sample_world).
Proof.
  assert (H4 : forall a, same_listing (Achievement.with_community_priority true a) a)
    by (intros a; repeat split).
  split; [repeat split; try reflexivity; apply H4 |].
  apply (X13_unread_fields_do_not_matter sample_world priority_world sample_key
           (Achievement.with_community_priority true)); try reflexivity. exact H4.
Defined.

Lemma X16_witness :
  (default 0 (Progress.current unstarted_record) = 0 /\
   default 1 (Progress.max unstarted_record) <> 0) /\
  nearly_complete_test (Some unstarted_record) = inr false.
Proof.
  assert (H2 : default 1 (Progress.max unstarted_record) <> 0) by (cbn; lia).
  split; [split; [reflexivity | exact H2] |].
  apply (X16_no_progress_is_not_nearly_complete unstarted_record); [reflexivity | exact H2].
Defined.

Lemma X17_witness :
  (10 = default 0 (Progress.current finished_record) /\
   10 = default 1 (Progress.max finished_record) /\
   0 < 10 /\ 10 <= 10 /\ 10 < 2 ^ 1023 * 10) /\
  nearly_complete_test (Some finished_record) = inr true.
Proof.
  assert (H5 : 10 < 2 ^ 1023 * 10) by (vm_compute; reflexivity).
  split; [repeat split; try reflexivity; try lia; try exact H5 |].
  apply (X17_reached_target_is_nearly_complete finished_record 10 10);
    try reflexivity; try lia; try exact H5.
Defined.

Lemma X18_witness :
  (0 < default 1 (Progress.max ahead_record) /\
   default 1 (Progress.max ahead_record) <= default 1 (Progress.max arena_record) /\
   default 0 (Progress.current arena_record) <= default 0 (Progress.current ahead_record) /\
   nearly_complete_test (Some arena_record) = inr true /\
   nearly_complete_test (Some ahead_record) = inr true) /\
  true = true.
Proof.
  assert (H4 : nearly_complete_test (Some arena_record) = inr true)
    by (vm_compute; reflexivity).
  assert (H5 : nearly_complete_test (Some ahead_record) = inr true)
    by (vm_compute; reflexivity).
  split; [repeat split; try exact H4; try exact H5; cbn; lia |].
  apply (X18_ratio_test_is_monotone arena_record ahead_record true);
    try exact H4; try exact H5; cbn; lia.
Defined.

Lemma X19_witness :
  (2 ^ 1024 = default 0 (Progress.current huge_record) /\
   1 = default 1 (Progress.max huge_record) /\
   0 < 1 /\ 2 ^ 1024 * 1 <= 2 ^ 1024) /\
  nearly_complete_test (Some huge_record) = inl Py.OverflowError.
Proof.
  assert (H4 : 2 ^ 1024 * 1 <= 2 ^ 1024) by (rewrite Z.mul_1_r; apply Z.le_refl).
  split; [repeat split; try reflexivity; try exact H4 |].
  apply (X19_huge_ratio_overflows huge_record (2 ^ 1024) 1);
    try reflexivity; try exact H4.
Defined.

Lemma X22_witness :
  (snd (get sample_key sample_world) =
     inr (mkResponse (RecommendationsBody sample_recommendations) 200) /\
   gw2_api sample_world api_url (auth_headers sample_key) = inr sample_progress /\
   In (project (in_progress sample_progress) arena_slayer)
      (Recommendations.nearly_complete sample_recommendations)) /\
  AchData.progress (project (in_progress sample_progress) arena_slayer) <> 0.
Proof.
  assert (H1 : snd (get sample_key sample_world) =
            inr (mkResponse (RecommendationsBody sample_recommendations) 200))
    by (vm_compute; reflexivity).
  assert (H2 : gw2_api sample_world api_url (auth_headers sample_key) = inr sample_progress)
    by reflexivity.
  assert (H3 : In (project (in_progress sample_progress) arena_slayer)
                 (Recommendations.nearly_complete sample_recommendations))
    by (vm_compute; auto).
  split; [auto |].
  exact (proj1 (proj2 (X22_nearly_complete_shows_progress sample_world sample_key
                         sample_recommendations 200 sample_progress _ H1 H2 H3))).
Defined.
